(** * Liveliness tokens of rmw_zenoh_cpp

    A shallow embedding of [liveliness_utils.cpp] (namespace [liveliness]):
    the name mangler, the key-expression splitter, the QoS codec and the
    two directions of the [Entity] codec, followed by the properties of the
    wire format.

    Conventions of the embedding:
    - [std::string] is [string]; a character is an [ascii];
    - [std::size_t] and [unsigned long] are 64 bits wide (LP64) and are
      modelled as [N], the bound [ULONG_MAX] being written out where the
      code depends on it;
    - a C++ exception that leaves a function is the [Throw] case of
      [result]; [std::nullopt] is [None] inside [Return];
    - a [std::unordered_map] built from an initializer list is an
      association list searched from the front (a later duplicate key is
      not inserted). *)

From Stdlib Require Import String Ascii List Arith NArith Bool Lia.
From Stdlib Require Import Decimal DecimalString DecimalPos DecimalN.
From Stdlib Require HexadecimalString.
From Stdlib.Strings Require Byte.
Import ListNotations.

Local Open Scope string_scope.
Local Open Scope N_scope.

(** ** Exceptions *)

Inductive exception : Set :=
| std_out_of_range
| std_invalid_argument.

Inductive result (A : Type) : Type :=
| Return (a : A)
| Throw (e : exception).

Arguments Return {A} a.
Arguments Throw {A} e.

Definition bind {A B : Type} (r : result A) (k : A -> result B) : result B :=
  match r with
  | Return a => k a
  | Throw e => Throw e
  end.

Notation "'let*' x ':=' r 'in' k" := (bind r (fun x => k))
  (at level 10, x name, r at level 100, k at level 200).

(** [try { body } catch (const std::exception &) { handler }] *)
Definition try_catch {A : Type} (body : result A) (handler : exception -> A) : A :=
  match body with
  | Return a => a
  | Throw e => handler e
  end.

(** ** Characters and strings *)

Definition SLASH : ascii := "/"%char.
Definition SLASH_REPLACEMENT : ascii := "%"%char.
Definition QOS_DELIMITER : ascii := ":"%char.
Definition QOS_HISTORY_DELIMITER : ascii := ","%char.
Definition NUL : ascii := "000"%char.

Definition ADMIN_SPACE : string := "@ros2_lv".
Definition NODE_STR : string := "NN".
Definition PUB_STR : string := "MP".
Definition SUB_STR : string := "MS".
Definition SRV_STR : string := "SS".
Definition CLI_STR : string := "SC".

(** [s.empty()] *)
Definition empty (s : string) : bool :=
  match s with
  | EmptyString => true
  | String _ _ => false
  end.

(** [c] occurs in [s]. *)
Fixpoint occurs (c : ascii) (s : string) : bool :=
  match s with
  | EmptyString => false
  | String a rest => Ascii.eqb a c || occurs c rest
  end.

(** ** Name mangler *)

(** [mangle_name]: the loop appends, for each character of the input in
    order, ['%'] when it is ['/'] and the character itself otherwise. *)
Fixpoint mangle_name (input : string) : string :=
  match input with
  | EmptyString => EmptyString
  | String c rest =>
      if Ascii.eqb c SLASH
      then String SLASH_REPLACEMENT (mangle_name rest)
      else String c (mangle_name rest)
  end.

(** [demangle_name]: the same loop with ['%'] turned into ['/']. *)
Fixpoint demangle_name (input : string) : string :=
  match input with
  | EmptyString => EmptyString
  | String c rest =>
      if Ascii.eqb c SLASH_REPLACEMENT
      then String SLASH (demangle_name rest)
      else String c (demangle_name rest)
  end.

(** ** Key splitter *)

(** [split_keyexpr]: the loop cuts the text at every occurrence of [delim];
    the part in progress is the substring from [start] up to the next
    delimiter, and the text after the last delimiter is pushed at the end,
    so the result always has one part more than there are delimiters. *)
Fixpoint split_keyexpr (delim : ascii) (keyexpr : string) : list string :=
  match keyexpr with
  | EmptyString => [EmptyString]
  | String c rest =>
      if Ascii.eqb c delim
      then EmptyString :: split_keyexpr delim rest
      else match split_keyexpr delim rest with
           | part :: parts => String c part :: parts
           | [] => [String c EmptyString]
           end
  end.

(** ** Numbers as text *)

(** [std::to_string] of an unsigned value, and [operator<<] of a
    [std::size_t] into a stream in the C locale: the decimal digits, most
    significant first, ["0"] for zero. *)
Definition to_string (n : N) : string :=
  NilZero.string_of_uint (N.to_uint n).

Definition ULONG_MAX : N := 18446744073709551615.

(** [isspace] in the C locale: space, [\t], [\n], [\v], [\f], [\r]. *)
Definition isspace (c : ascii) : bool :=
  let n := N_of_ascii c in
  (n =? 32) || ((9 <=? n) && (n <=? 13)).

Definition isdigit (c : ascii) : bool :=
  let n := N_of_ascii c in
  (48 <=? n) && (n <=? 57).

Definition digit_value (c : ascii) : N := N_of_ascii c - 48.

(** [str.c_str()] as a C function reads it: the text up to the first NUL. *)
Fixpoint c_str (s : string) : string :=
  match s with
  | EmptyString => EmptyString
  | String c rest => if Ascii.eqb c NUL then EmptyString else String c (c_str rest)
  end.

(** [*(p + i)] for a C string [p]: the terminator is read at its end. *)
Fixpoint deref (p : string) (i : nat) : ascii :=
  match p, i with
  | EmptyString, _ => NUL
  | String c _, O => c
  | String _ rest, S j => deref rest j
  end.

(** The white space [strtoul] skips: how many characters, and what follows. *)
Fixpoint skip_spaces (s : string) : nat * string :=
  match s with
  | String c rest =>
      if isspace c
      then let (n, r) := skip_spaces rest in (S n, r)
      else (O, s)
  | EmptyString => (O, s)
  end.

(** The digits [strtoul] reads in base 10: the number they denote on top
    of [acc], and how many there are. *)
Fixpoint read_digits (s : string) (acc : N) : N * nat :=
  match s with
  | String c rest =>
      if isdigit c
      then let (v, n) := read_digits rest (10 * acc + digit_value c) in (v, S n)
      else (acc, O)
  | EmptyString => (acc, O)
  end.

(** What a call [strtoul(nptr, &endptr, 10)] made with [errno == 0] leaves:
    the value returned, [endptr] as an offset from [nptr], and whether
    [errno] was set (to [ERANGE]). *)
Record strtoul_t : Set := mk_strtoul {
  strtoul_num : N;
  strtoul_endptr : nat;
  strtoul_errno : bool
}.

(** The optional sign [strtoul] takes: whether it is a minus, how many
    characters it has, and what follows. *)
Definition read_sign (s : string) : bool * nat * string :=
  match s with
  | String "-"%char r => (true, 1%nat, r)
  | String "+"%char r => (false, 1%nat, r)
  | _ => (false, 0%nat, s)
  end.

(** [strtoul] in base 10: skip white space, take an optional sign, read
    the longest run of digits. Without a digit nothing is converted and
    [endptr] is [nptr]. A magnitude above [ULONG_MAX] gives [ULONG_MAX] and
    [ERANGE]; otherwise a minus sign negates the value in the unsigned
    type. *)
Definition strtoul (nptr : string) : strtoul_t :=
  let (nspace, s1) := skip_spaces nptr in
  let '(negative, nsign, s2) := read_sign s1 in
  let (v, ndigits) := read_digits s2 0 in
  match ndigits with
  | O => mk_strtoul 0 0 false
  | S _ =>
      let endptr := (nspace + nsign + ndigits)%nat in
      if ULONG_MAX <? v then mk_strtoul ULONG_MAX endptr true
      else mk_strtoul (if negative then (ULONG_MAX + 1 - v) mod (ULONG_MAX + 1) else v)
                      endptr false
  end.

(** [std::stoul(str)]: [strtoul] on [str.c_str()]; [std::invalid_argument]
    when nothing was converted, [std::out_of_range] on [ERANGE]; what
    follows the number is ignored. *)
Definition stoul (str : string) : result N :=
  let r := strtoul (c_str str) in
  match strtoul_endptr r with
  | O => Throw std_invalid_argument
  | S _ => if strtoul_errno r then Throw std_out_of_range
           else Return (strtoul_num r)
  end.

(** ** Lookup tables *)

(** [m.find(key)]: the value of the first entry with that key. *)
Fixpoint find {K V : Type} (eqb : K -> K -> bool) (key : K) (m : list (K * V)) : option V :=
  match m with
  | [] => None
  | (k, v) :: rest => if eqb k key then Some v else find eqb key rest
  end.

(** [m.at(key)] throws [std::out_of_range] for a key that is not there. *)
Definition at_ {K V : Type} (eqb : K -> K -> bool) (key : K) (m : list (K * V)) : result V :=
  match find eqb key m with
  | Some v => Return v
  | None => Throw std_out_of_range
  end.

(** ** QoS profile *)

(** The enumerators of [rmw/types.h], which is not among the sources. The
    docstrings of [qos_to_keyexpr] and of the [Entity] constructor give
    reliable = 1, best effort = 2, transient local = 1, volatile = 2,
    keep last = 1 and keep all = 2; [SYSTEM_DEFAULT] and [UNKNOWN] are the
    first and the fourth enumerator of each enum. An enum field holds the
    number of its enumerator. *)
Definition RMW_QOS_POLICY_HISTORY_SYSTEM_DEFAULT : N := 0.
Definition RMW_QOS_POLICY_HISTORY_KEEP_LAST : N := 1.
Definition RMW_QOS_POLICY_HISTORY_KEEP_ALL : N := 2.
Definition RMW_QOS_POLICY_HISTORY_UNKNOWN : N := 3.

Definition RMW_QOS_POLICY_RELIABILITY_SYSTEM_DEFAULT : N := 0.
Definition RMW_QOS_POLICY_RELIABILITY_RELIABLE : N := 1.
Definition RMW_QOS_POLICY_RELIABILITY_BEST_EFFORT : N := 2.
Definition RMW_QOS_POLICY_RELIABILITY_UNKNOWN : N := 3.

Definition RMW_QOS_POLICY_DURABILITY_SYSTEM_DEFAULT : N := 0.
Definition RMW_QOS_POLICY_DURABILITY_TRANSIENT_LOCAL : N := 1.
Definition RMW_QOS_POLICY_DURABILITY_VOLATILE : N := 2.
Definition RMW_QOS_POLICY_DURABILITY_UNKNOWN : N := 3.

Definition RMW_QOS_POLICY_LIVELINESS_AUTOMATIC : N := 1.

Record rmw_time_t : Set := mk_time {
  sec : N;
  nsec : N
}.

(** The defaults of [rmw/types.h] (an unspecified duration); the codec only
    stores them. *)
Definition RMW_QOS_LIVELINESS_LEASE_DURATION_DEFAULT : rmw_time_t := mk_time 0 0.
Definition RMW_QOS_DEADLINE_DEFAULT : rmw_time_t := mk_time 0 0.
Definition RMW_QOS_LIFESPAN_DEFAULT : rmw_time_t := mk_time 0 0.

(** The fields of [rmw_qos_profile_t] the codec reads or writes. *)
Record rmw_qos_profile_t : Set := mk_qos {
  history : N;
  depth : N;
  reliability : N;
  durability : N;
  deadline : rmw_time_t;
  lifespan : rmw_time_t;
  liveliness : N;
  liveliness_lease_duration : rmw_time_t
}.

Definition str_to_qos_history : list (string * N) :=
  [ (to_string RMW_QOS_POLICY_HISTORY_SYSTEM_DEFAULT, RMW_QOS_POLICY_HISTORY_SYSTEM_DEFAULT);
    (to_string RMW_QOS_POLICY_HISTORY_KEEP_LAST, RMW_QOS_POLICY_HISTORY_KEEP_LAST);
    (to_string RMW_QOS_POLICY_HISTORY_KEEP_ALL, RMW_QOS_POLICY_HISTORY_KEEP_ALL);
    (to_string RMW_QOS_POLICY_HISTORY_UNKNOWN, RMW_QOS_POLICY_HISTORY_UNKNOWN) ].

Definition str_to_qos_reliability : list (string * N) :=
  [ (to_string RMW_QOS_POLICY_RELIABILITY_SYSTEM_DEFAULT,
      RMW_QOS_POLICY_RELIABILITY_SYSTEM_DEFAULT);
    (to_string RMW_QOS_POLICY_RELIABILITY_RELIABLE, RMW_QOS_POLICY_RELIABILITY_RELIABLE);
    (to_string RMW_QOS_POLICY_RELIABILITY_BEST_EFFORT, RMW_QOS_POLICY_RELIABILITY_BEST_EFFORT);
    (to_string RMW_QOS_POLICY_RELIABILITY_UNKNOWN, RMW_QOS_POLICY_RELIABILITY_UNKNOWN) ].

Definition str_to_qos_durability : list (string * N) :=
  [ (to_string RMW_QOS_POLICY_DURABILITY_SYSTEM_DEFAULT,
      RMW_QOS_POLICY_DURABILITY_SYSTEM_DEFAULT);
    (to_string RMW_QOS_POLICY_DURABILITY_TRANSIENT_LOCAL,
      RMW_QOS_POLICY_DURABILITY_TRANSIENT_LOCAL);
    (to_string RMW_QOS_POLICY_DURABILITY_VOLATILE, RMW_QOS_POLICY_DURABILITY_VOLATILE);
    (to_string RMW_QOS_POLICY_DURABILITY_UNKNOWN, RMW_QOS_POLICY_DURABILITY_UNKNOWN) ].

(** [parts[i]]; every use is behind a check of [parts.size()]. *)
Definition part (parts : list string) (i : nat) : string := nth i parts EmptyString.

(** [qos_to_keyexpr]: "<reliability>:<durability>:<history>,<depth>". *)
Definition qos_to_keyexpr (qos : rmw_qos_profile_t) : string :=
  let keyexpr := EmptyString in
  let keyexpr := keyexpr ++ to_string (reliability qos) in
  let keyexpr := keyexpr ++ String QOS_DELIMITER EmptyString in
  let keyexpr := keyexpr ++ to_string (durability qos) in
  let keyexpr := keyexpr ++ String QOS_DELIMITER EmptyString in
  let keyexpr := keyexpr ++ to_string (history qos) in
  let keyexpr := keyexpr ++ String QOS_HISTORY_DELIMITER EmptyString in
  let keyexpr := keyexpr ++ to_string (depth qos) in
  keyexpr.

(** [keyexpr_to_qos]: [None] is [std::nullopt]. The three table lookups sit
    in one [try] block whose handler returns [std::nullopt]. *)
Definition keyexpr_to_qos (keyexpr : string) : option rmw_qos_profile_t :=
  let parts := split_keyexpr QOS_DELIMITER keyexpr in
  if (length parts <? 3)%nat then None else
  let history_parts := split_keyexpr QOS_HISTORY_DELIMITER (part parts 2) in
  if (length history_parts <? 2)%nat then None else
  try_catch
    (let* qos_history := at_ String.eqb (part history_parts 0) str_to_qos_history in
     let* qos_reliability := at_ String.eqb (part parts 0) str_to_qos_reliability in
     let* qos_durability := at_ String.eqb (part parts 1) str_to_qos_durability in
     Return
       (let nptr := c_str (part history_parts 1) in
        let r := strtoul nptr in
        let endptr := strtoul_endptr r in
        match endptr with
        | O => None
        | S _ =>
            if negb (Ascii.eqb (deref nptr endptr) NUL) then None
            else if strtoul_errno r then None
            else Some {| history := qos_history;
                         depth := strtoul_num r;
                         reliability := qos_reliability;
                         durability := qos_durability;
                         deadline := RMW_QOS_DEADLINE_DEFAULT;
                         lifespan := RMW_QOS_LIFESPAN_DEFAULT;
                         liveliness := RMW_QOS_POLICY_LIVELINESS_AUTOMATIC;
                         liveliness_lease_duration :=
                           RMW_QOS_LIVELINESS_LEASE_DURATION_DEFAULT |}
        end))
    (fun _ => None).

(** ** Session id and subscription token *)

(** [z_id_t], declared in [zenoh.h], which is not among the sources: the
    bytes of [id.id], an array of [uint8_t]. *)
Definition z_id_t : Set := list Byte.byte.

(** What [ss << std::hex] makes of [ss << static_cast<int>(b)] for a byte:
    the hexadecimal digits of its value in lower case, most significant
    first, with no prefix and no padding. *)
Definition hex (n : N) : string :=
  HexadecimalString.NilZero.string_of_uint (N.to_hex_uint n).

(** [zid_to_str]: the loop streams every byte of [id.id] in turn. *)
Fixpoint zid_to_str (id : z_id_t) : string :=
  match id with
  | [] => EmptyString
  | b :: rest => hex (Byte.to_N b) ++ zid_to_str rest
  end.

(** [subscription_token] *)
Definition subscription_token (domain_id : N) : string :=
  let token := ((ADMIN_SPACE ++ "/") ++ to_string domain_id) ++ "/**" in
  token.

(** ** Entity model *)

(** [enum class EntityType], declared in [liveliness_utils.hpp], which is
    not among the sources. The five enumerators are the ones the tables
    name; [Invalid] stands for any other value of the enum, the case that
    the guard [entity_to_str.find(type) == entity_to_str.end()] of the
    factory from facts rejects. *)
Inductive EntityType : Set :=
| Invalid
| Node
| Publisher
| Subscription
| Service
| Client.

Definition EntityType_eqb (a b : EntityType) : bool :=
  match a, b with
  | Invalid, Invalid | Node, Node | Publisher, Publisher
  | Subscription, Subscription | Service, Service | Client, Client => true
  | _, _ => false
  end.

Definition entity_to_str : list (EntityType * string) :=
  [ (Node, NODE_STR); (Publisher, PUB_STR); (Subscription, SUB_STR);
    (Service, SRV_STR); (Client, CLI_STR) ].

Definition str_to_entity : list (string * EntityType) :=
  [ (NODE_STR, Node); (PUB_STR, Publisher); (SUB_STR, Subscription);
    (SRV_STR, Service); (CLI_STR, Client) ].

(** [opt.has_value()] *)
Definition has_value {A : Type} (o : option A) : bool :=
  match o with
  | Some _ => true
  | None => false
  end.

Module NodeInfo.

Record t : Set := mk {
  domain_id_ : N;
  ns_ : string;
  name_ : string;
  enclave_ : string
}.

End NodeInfo.

Module TopicInfo.

Record t : Set := mk {
  name_ : string;
  type_ : string;
  qos_ : rmw_qos_profile_t
}.

End TopicInfo.

Module Entity.

Record t : Set := mk {
  id_ : string;
  type_ : EntityType;
  node_info_ : NodeInfo.t;
  topic_info_ : option TopicInfo.t;
  keyexpr_ : string
}.

(** The liveliness token the constructor streams into [token_ss]. The
    lookup [entity_to_str.at(type_)] throws for a type without a tag. *)
Definition token (id : string) (type : EntityType) (node_info : NodeInfo.t)
  (topic_info : option TopicInfo.t) : result string :=
  let ns := NodeInfo.ns_ node_info in
  let* entity_str := at_ EntityType_eqb type entity_to_str in
  let token_ss :=
    ADMIN_SPACE ++ "/" ++ to_string (NodeInfo.domain_id_ node_info) ++ "/" ++ id ++ "/"
      ++ entity_str ++ ns in
  let token_ss := token_ss ++ (if String.eqb ns "/" then "_/" else "/") in
  let token_ss := token_ss ++ mangle_name (NodeInfo.name_ node_info) in
  let token_ss :=
    match topic_info with
    | Some topic_info =>
        token_ss ++
          ("/" ++ mangle_name (TopicInfo.name_ topic_info) ++ "/"
           ++ TopicInfo.type_ topic_info ++ "/"
           ++ qos_to_keyexpr (TopicInfo.qos_ topic_info))
    | None => token_ss
    end in
  Return token_ss.

(** [Entity::Entity]: the members are set from the arguments and
    [keyexpr_] from the token. *)
Definition new (id : string) (type : EntityType) (node_info : NodeInfo.t)
  (topic_info : option TopicInfo.t) : result t :=
  let* token_ss := token id type node_info topic_info in
  Return {| id_ := id;
            type_ := type;
            node_info_ := node_info;
            topic_info_ := topic_info;
            keyexpr_ := token_ss |}.

(** [Entity::make(const std::string &)] after its first statement, on the
    parts the key expression splits into. [Return None] is [std::nullopt];
    [std::stoul] is called outside any [try] block, so what it throws
    leaves the function. *)
Definition parse (parts : list string) : result (option t) :=
  if (length parts <? 6)%nat then Return None else
  if existsb empty parts then Return None else
  if negb (String.eqb (part parts 0) ADMIN_SPACE) then Return None else
  let entity_str := part parts 3 in
  match find String.eqb entity_str str_to_entity with
  | None => Return None
  | Some entity_type =>
      let* domain_id := stoul (part parts 1) in
      let id := part parts 2 in
      let ns := if String.eqb (part parts 4) "_" then "/" else "/" ++ part parts 4 in
      let node_name := demangle_name (part parts 5) in
      let construct (topic_info : option TopicInfo.t) : result (option t) :=
        let* entity :=
          new id entity_type (NodeInfo.mk domain_id ns node_name EmptyString) topic_info in
        Return (Some entity) in
      if negb (EntityType_eqb entity_type Node) then
        if (length parts <? 9)%nat then Return None else
        match keyexpr_to_qos (part parts 8) with
        | None => Return None
        | Some qos =>
            construct
              (Some (TopicInfo.mk (demangle_name (part parts 6)) (part parts 7) qos))
        end
      else construct None
  end.

(** [Entity::make(const std::string &)]. *)
Definition make (keyexpr : string) : result (option t) :=
  parse (split_keyexpr SLASH keyexpr).

(** [Entity::make(z_id_t, EntityType, NodeInfo, std::optional<TopicInfo>)],
    the factory from facts. *)
Definition make_from_facts (id : z_id_t) (type : EntityType) (node_info : NodeInfo.t)
  (topic_info : option TopicInfo.t) : result (option t) :=
  if negb (has_value (find EntityType_eqb type entity_to_str)) then Return None else
  if empty (NodeInfo.ns_ node_info) || empty (NodeInfo.name_ node_info) then Return None else
  if negb (EntityType_eqb type Node) && negb (has_value topic_info) then Return None else
  let* entity := new (zid_to_str id) type node_info topic_info in
  Return (Some entity).

(** The accessors. *)
Definition id (e : t) : string := id_ e.
Definition type (e : t) : EntityType := type_ e.
Definition node_namespace (e : t) : string := NodeInfo.ns_ (node_info_ e).
Definition node_name (e : t) : string := NodeInfo.name_ (node_info_ e).
Definition node_enclave (e : t) : string := NodeInfo.enclave_ (node_info_ e).
Definition topic_info (e : t) : option TopicInfo.t := topic_info_ e.
Definition keyexpr (e : t) : string := keyexpr_ e.

End Entity.

(** ** Vocabulary of the statements *)

(** Every character of [s] satisfies [p]. *)
Fixpoint string_forall (p : ascii -> bool) (s : string) : bool :=
  match s with
  | EmptyString => true
  | String c rest => p c && string_forall p rest
  end.

(** The number a decimal numeral denotes on top of [acc], digit by digit. *)
Fixpoint uint_value (d : uint) (acc : N) : N :=
  match d with
  | Nil => acc
  | D0 d => uint_value d (10 * acc + 0)
  | D1 d => uint_value d (10 * acc + 1)
  | D2 d => uint_value d (10 * acc + 2)
  | D3 d => uint_value d (10 * acc + 3)
  | D4 d => uint_value d (10 * acc + 4)
  | D5 d => uint_value d (10 * acc + 5)
  | D6 d => uint_value d (10 * acc + 6)
  | D7 d => uint_value d (10 * acc + 7)
  | D8 d => uint_value d (10 * acc + 8)
  | D9 d => uint_value d (10 * acc + 9)
  end.

(** One turn of the loop of [split_keyexpr]: the substring from [start] up
    to the next delimiter, [substr(start, end - start)], and the text from
    [end + 1] on when [find] has met a delimiter. *)
Fixpoint cut (delim : ascii) (s : string) : string * option string :=
  match s with
  | EmptyString => (EmptyString, None)
  | String c rest =>
      if Ascii.eqb c delim then (EmptyString, Some rest)
      else let (p, r) := cut delim rest in (String c p, r)
  end.

(** The parts joined by the delimiter, as a key expression lists them. *)
Fixpoint join (delim : ascii) (parts : list string) : string :=
  match parts with
  | [] => EmptyString
  | [p] => p
  | p :: rest => p ++ String delim (join delim rest)
  end.

(** A text that is empty or starts with a character outside [p]. *)
Definition stops (p : ascii -> bool) (s : string) : Prop :=
  match s with
  | EmptyString => True
  | String c _ => p c = false
  end.

(** The three forms of the sign of a numeral. *)
Inductive sign_text : string -> Prop :=
| sign_none : sign_text ""
| sign_plus : sign_text "+"
| sign_minus : sign_text "-".

(** The sign characters. *)
Definition is_sign (c : ascii) : bool :=
  Ascii.eqb c "+"%char || Ascii.eqb c "-"%char.

(** A depth as [keyexpr_to_qos] takes it: white space, an optional sign
    and at least one digit, nothing else, for a number within [ULONG_MAX]. *)
Definition depth_numeral (text : string) : Prop :=
  exists (ws sg : string) (d : uint),
    text = ws ++ sg ++ NilEmpty.string_of_uint d /\
    string_forall isspace ws = true /\ sign_text sg /\ d <> Nil /\
    N.of_uint d <= ULONG_MAX.

(** The ways a depth text is not a number: it is empty; it has no digit
    where the number should start, after the white space and the sign;
    the number is followed by a character that is not a digit; the number
    is above [ULONG_MAX]. *)
Inductive depth_error : string -> Prop :=
| depth_empty :
    depth_error ""
| depth_no_number (ws sg rest : string) :
    string_forall isspace ws = true -> sign_text sg ->
    stops isspace (sg ++ rest) -> (sg = "" -> stops is_sign rest) ->
    stops isdigit rest ->
    depth_error (ws ++ sg ++ rest)
| depth_trailing (ws sg : string) (d : uint) (c : ascii) (rest : string) :
    string_forall isspace ws = true -> sign_text sg -> d <> Nil ->
    isdigit c = false ->
    depth_error (ws ++ sg ++ NilEmpty.string_of_uint d ++ String c rest)
| depth_overflow (ws sg : string) (d : uint) (tail : string) :
    string_forall isspace ws = true -> sign_text sg -> d <> Nil ->
    stops isdigit tail -> ULONG_MAX < N.of_uint d ->
    depth_error (ws ++ sg ++ NilEmpty.string_of_uint d ++ tail).

(** The QoS substrings that are refused: too few parts between the colons,
    too few sub-parts between the commas of the third part, a policy that
    is not a key of its table, or a depth sub-part that, read up to its
    first NUL character as [strtoul] reads it through [c_str()], is not a
    depth. *)
Definition qos_refused (keyexpr : string) : Prop :=
  let parts := split_keyexpr QOS_DELIMITER keyexpr in
  let history_parts := split_keyexpr QOS_HISTORY_DELIMITER (part parts 2) in
  (length parts < 3)%nat \/
  (length history_parts < 2)%nat \/
  ~ In (part parts 0) (map fst str_to_qos_reliability) \/
  ~ In (part parts 1) (map fst str_to_qos_durability) \/
  ~ In (part history_parts 0) (map fst str_to_qos_history) \/
  ~ depth_numeral (c_str (part history_parts 1)).

(** The wire format in the words of the specification. *)

(** The 2-character tag of each of the five entity types. *)
Definition entity_tag (type : EntityType) : option string :=
  match type with
  | Node => Some "NN"
  | Publisher => Some "MP"
  | Subscription => Some "MS"
  | Service => Some "SS"
  | Client => Some "SC"
  | Invalid => None
  end.

(** The namespace segment: the namespace followed by the sentinel ["_/"]
    when it is exactly ["/"], and by ["/"] otherwise. *)
Definition namespace_segment (ns : string) : string :=
  if String.eqb ns "/" then ns ++ "_/" else ns ++ "/".

(** "<reliability>:<durability>:<history>,<depth>" *)
Definition qos_encoding (qos : rmw_qos_profile_t) : string :=
  to_string (reliability qos) ++ ":" ++ to_string (durability qos) ++ ":"
    ++ to_string (history qos) ++ "," ++ to_string (depth qos).

(** What a topic adds: the mangled topic name, the topic type as it is
    and the QoS encoding, each after a ["/"]. *)
Definition topic_suffix (topic_info : option TopicInfo.t) : string :=
  match topic_info with
  | None => ""
  | Some topic =>
      "/" ++ mangle_name (TopicInfo.name_ topic) ++ "/" ++ TopicInfo.type_ topic ++ "/"
        ++ qos_encoding (TopicInfo.qos_ topic)
  end.

Definition keyexpr_format (id tag : string) (node_info : NodeInfo.t)
  (topic_info : option TopicInfo.t) : string :=
  "@ros2_lv" ++ "/" ++ to_string (NodeInfo.domain_id_ node_info) ++ "/" ++ id ++ "/" ++ tag
    ++ namespace_segment (NodeInfo.ns_ node_info)
    ++ mangle_name (NodeInfo.name_ node_info)
    ++ topic_suffix topic_info.

(** The number of segments [Entity::make] reads: 6 for the tag of a node,
    9 for any other tag. *)
Definition expected_segments (parts : list string) : nat :=
  if String.eqb (part parts 3) NODE_STR then 6%nat else 9%nat.

(** A text that can stand as one segment of a key expression: it is not
    empty and has no ["/"]. *)
Definition segment (s : string) : Prop :=
  s <> EmptyString /\ occurs SLASH s = false.

(** A namespace that takes one segment of the key expression: the root
    ["/"], or ["/"] followed by one segment other than the sentinel. *)
Definition single_segment_namespace (ns : string) : Prop :=
  ns = "/" \/ exists seg : string, ns = String SLASH seg /\ segment seg /\ seg <> "_".

(** A QoS profile made of values of the closed tables and of a depth that
    fits [std::size_t]. *)
Definition qos_in_tables (qos : rmw_qos_profile_t) : Prop :=
  In (reliability qos) (map snd str_to_qos_reliability) /\
  In (durability qos) (map snd str_to_qos_durability) /\
  In (history qos) (map snd str_to_qos_history) /\
  depth qos <= ULONG_MAX.

(** A QoS profile up to the fields decoding fixes to their defaults. *)
Definition decoded_qos (qos : rmw_qos_profile_t) : rmw_qos_profile_t :=
  {| history := history qos;
     depth := depth qos;
     reliability := reliability qos;
     durability := durability qos;
     deadline := RMW_QOS_DEADLINE_DEFAULT;
     lifespan := RMW_QOS_LIFESPAN_DEFAULT;
     liveliness := RMW_QOS_POLICY_LIVELINESS_AUTOMATIC;
     liveliness_lease_duration := RMW_QOS_LIVELINESS_LEASE_DURATION_DEFAULT |}.

Definition decoded_topic (topic : TopicInfo.t) : TopicInfo.t :=
  TopicInfo.mk (TopicInfo.name_ topic) (TopicInfo.type_ topic)
    (decoded_qos (TopicInfo.qos_ topic)).

(** The entity facts whose key expression is decoded back to them: one of
    the five entity types; an id that is one segment; a domain id that
    fits [std::size_t]; a namespace of one segment; a non-empty node name
    without ['%']; no topic for a node and, for any other type, a topic
    with a non-empty name without ['%'], a type that is one segment and a
    QoS profile from the tables. *)
Definition round_trip_facts (id : string) (type : EntityType) (node_info : NodeInfo.t)
  (topic_info : option TopicInfo.t) : Prop :=
  type <> Invalid /\
  segment id /\
  NodeInfo.domain_id_ node_info <= ULONG_MAX /\
  single_segment_namespace (NodeInfo.ns_ node_info) /\
  NodeInfo.name_ node_info <> EmptyString /\
  occurs SLASH_REPLACEMENT (NodeInfo.name_ node_info) = false /\
  match topic_info with
  | None => type = Node
  | Some topic =>
      type <> Node /\
      TopicInfo.name_ topic <> EmptyString /\
      occurs SLASH_REPLACEMENT (TopicInfo.name_ topic) = false /\
      segment (TopicInfo.type_ topic) /\
      qos_in_tables (TopicInfo.qos_ topic)
  end.

(** The segments of the key expression of an entity: segment 4 of a
    namespace, and the three segments of a topic. *)
Definition namespace_part (ns : string) : string :=
  match ns with
  | String _ EmptyString => "_"
  | String _ seg => seg
  | EmptyString => EmptyString
  end.

Definition topic_parts (topic_info : option TopicInfo.t) : list string :=
  match topic_info with
  | None => []
  | Some topic =>
      [ mangle_name (TopicInfo.name_ topic); TopicInfo.type_ topic;
        qos_to_keyexpr (TopicInfo.qos_ topic) ]
  end.

Definition keyexpr_parts (id tag : string) (node_info : NodeInfo.t)
  (topic_info : option TopicInfo.t) : list string :=
  [ ADMIN_SPACE; to_string (NodeInfo.domain_id_ node_info); id; tag;
    namespace_part (NodeInfo.ns_ node_info); mangle_name (NodeInfo.name_ node_info) ]
  ++ topic_parts topic_info.

(** How many times [c] occurs in [s]. *)
Fixpoint count (c : ascii) (s : string) : nat :=
  match s with
  | EmptyString => O
  | String a rest => if Ascii.eqb a c then S (count c rest) else count c rest
  end.

(** A hexadecimal digit in lower case. *)
Definition is_hex_digit (c : ascii) : bool :=
  let n := N_of_ascii c in
  isdigit c || ((97 <=? n) && (n <=? 102)).

(** The facts that the factory from facts refuses. *)
Definition refused_facts (type : EntityType) (node_info : NodeInfo.t)
  (topic_info : option TopicInfo.t) : Prop :=
  type = Invalid \/
  NodeInfo.ns_ node_info = EmptyString \/
  NodeInfo.name_ node_info = EmptyString \/
  (type <> Node /\ topic_info = None).

(** The conditions of the round trip on the type, the node and the topic
    of an entity, the id apart. *)
Definition round_trip_node_topic (type : EntityType) (node_info : NodeInfo.t)
  (topic_info : option TopicInfo.t) : Prop :=
  type <> Invalid /\
  NodeInfo.domain_id_ node_info <= ULONG_MAX /\
  single_segment_namespace (NodeInfo.ns_ node_info) /\
  NodeInfo.name_ node_info <> EmptyString /\
  occurs SLASH_REPLACEMENT (NodeInfo.name_ node_info) = false /\
  match topic_info with
  | None => type = Node
  | Some topic =>
      type <> Node /\
      TopicInfo.name_ topic <> EmptyString /\
      occurs SLASH_REPLACEMENT (TopicInfo.name_ topic) = false /\
      segment (TopicInfo.type_ topic) /\
      qos_in_tables (TopicInfo.qos_ topic)
  end.

(** * Properties *)

(** ** Strings *)

Lemma occurs_app (c : ascii) (a b : string) :
  occurs c (a ++ b) = occurs c a || occurs c b.
Proof.
  induction a as [|x a IH]; simpl; [reflexivity|].
  now rewrite IH, orb_assoc.
Qed.

Lemma empty_true (s : string) : empty s = true <-> s = EmptyString.
Proof. destruct s; simpl; split; congruence. Qed.

Lemma empty_false (s : string) : empty s = false <-> s <> EmptyString.
Proof. destruct s; simpl; split; congruence. Qed.

Lemma append_nil_r (s : string) : s ++ EmptyString = s.
Proof. induction s; simpl; congruence. Qed.

Lemma append_assoc (a b c : string) : (a ++ b) ++ c = a ++ b ++ c.
Proof. induction a; simpl; congruence. Qed.

(** ** Name mangler *)

Lemma demangle_mangle (x : string) :
  occurs SLASH_REPLACEMENT x = false -> demangle_name (mangle_name x) = x.
Proof.
  induction x as [|c x IH]; simpl; [reflexivity|].
  intros H. apply orb_false_elim in H. destruct H as [Hc Hx].
  destruct (Ascii.eqb_spec c SLASH) as [->|Hs]; simpl.
  - now rewrite IH.
  - rewrite Hc. now rewrite IH.
Qed.

Lemma mangle_no_slash (x : string) : occurs SLASH (mangle_name x) = false.
Proof.
  induction x as [|c x IH]; simpl; [reflexivity|].
  destruct (Ascii.eqb_spec c SLASH) as [->|Hs]; simpl; [exact IH|].
  rewrite IH. now destruct (Ascii.eqb_spec c SLASH).
Qed.

Lemma mangle_empty (x : string) : empty (mangle_name x) = empty x.
Proof. destruct x as [|c x]; simpl; [reflexivity|]. now destruct (Ascii.eqb c SLASH). Qed.

(** C8. Mangling inverse: on a name without the escape character ['%'],
    [demangle_name] undoes [mangle_name]; and two such names with the same
    mangled form are equal, so [mangle_name] is injective there. Both
    functions are defined on every string. *)
Theorem mangle_demangle_inverse :
  forall x : string,
    occurs SLASH_REPLACEMENT x = false ->
    demangle_name (mangle_name x) = x /\
    (forall y : string,
        occurs SLASH_REPLACEMENT y = false ->
        mangle_name x = mangle_name y -> x = y).
Proof.
  intros x Hx. split.
  - now apply demangle_mangle.
  - intros y Hy E.
    rewrite <- (demangle_mangle x Hx), <- (demangle_mangle y Hy).
    now rewrite E.
Qed.

Lemma mangle_demangle_inverse_witness :
  occurs SLASH_REPLACEMENT "/ns/talker" = false /\
  demangle_name (mangle_name "/ns/talker") = "/ns/talker".
Proof.
  split; [reflexivity|].
  exact (proj1 (mangle_demangle_inverse "/ns/talker" eq_refl)).
Defined.

(** ** Numbers as text *)

Lemma string_forall_occurs (p : ascii -> bool) (c : ascii) (s : string) :
  string_forall p s = true -> p c = false -> occurs c s = false.
Proof.
  intros Hs Hc. induction s as [|a s IH]; simpl in *; [reflexivity|].
  apply andb_prop in Hs. destruct Hs as [Ha Hs].
  rewrite (IH Hs), orb_false_r.
  destruct (Ascii.eqb_spec a c) as [->|]; congruence.
Qed.

Lemma uint_digits (d : uint) : string_forall isdigit (NilEmpty.string_of_uint d) = true.
Proof. induction d; simpl; auto. Qed.

Lemma to_string_digits (n : N) : string_forall isdigit (to_string n) = true.
Proof.
  unfold to_string, NilZero.string_of_uint.
  destruct (N.to_uint n); try reflexivity; apply uint_digits.
Qed.

Lemma to_string_head (n : N) :
  exists c rest, to_string n = String c rest /\ isdigit c = true.
Proof.
  pose proof (to_string_digits n) as H.
  assert (E : to_string n <> EmptyString).
  { unfold to_string, NilZero.string_of_uint. destruct (N.to_uint n); discriminate. }
  destruct (to_string n) as [|c rest]; [congruence|].
  simpl in H. apply andb_prop in H. exists c, rest. tauto.
Qed.

Lemma to_string_nonempty (n : N) : empty (to_string n) = false.
Proof. destruct (to_string_head n) as (c & rest & -> & _). reflexivity. Qed.

Lemma to_string_free (n : N) (c : ascii) : isdigit c = false -> occurs c (to_string n) = false.
Proof. apply string_forall_occurs, to_string_digits. Qed.

Lemma uint_value_pos (d : uint) (p : positive) :
  uint_value d (Npos p) = Npos (Pos.of_uint_acc d p).
Proof.
  revert p. induction d; intros p; cbn [uint_value Pos.of_uint_acc];
    [reflexivity | rewrite <- IHd; f_equal; lia ..].
Qed.

Lemma uint_value_of_uint (d : uint) : uint_value d 0 = N.of_uint d.
Proof.
  unfold N.of_uint.
  induction d; cbn [uint_value Pos.of_uint]; rewrite ?N.mul_0_r, ?N.add_0_l;
    [reflexivity | exact IHd | apply uint_value_pos ..].
Qed.

Lemma read_digits_uint (d : uint) (tail : string) (acc : N) :
  stops isdigit tail ->
  read_digits (NilEmpty.string_of_uint d ++ tail) acc =
  (uint_value d acc, String.length (NilEmpty.string_of_uint d)).
Proof.
  intros Ht. revert acc.
  induction d; intros acc;
    cbn [NilEmpty.string_of_uint read_digits uint_value String.length append];
    [ destruct tail as [|c tail]; cbn [read_digits]; [reflexivity | now rewrite Ht]
    | change (isdigit _) with true; cbv iota; rewrite IHd; reflexivity ..].
Qed.

Lemma uint_head (d : uint) :
  d <> Nil ->
  exists c rest, NilEmpty.string_of_uint d = String c rest /\ isdigit c = true.
Proof. destruct d; [congruence | intros _; simpl; eauto ..]. Qed.

Lemma digit_not_space (c : ascii) : isdigit c = true -> isspace c = false.
Proof. destruct c as [[] [] [] [] [] [] [] []]; intros H; (reflexivity || discriminate H). Qed.

Lemma skip_spaces_app (ws x : string) :
  string_forall isspace ws = true -> stops isspace x ->
  skip_spaces (ws ++ x) = (String.length ws, x).
Proof.
  intros Hws Hx. induction ws as [|c ws IH]; cbn [append String.length].
  - destruct x as [|c x]; cbn [skip_spaces]; [reflexivity | now rewrite Hx].
  - simpl in Hws. apply andb_prop in Hws. destruct Hws as [Hc Hws].
    cbn [skip_spaces]. now rewrite Hc, (IH Hws).
Qed.

Lemma read_sign_digit (c : ascii) (rest : string) :
  isdigit c = true -> read_sign (String c rest) = (false, 0%nat, String c rest).
Proof. destruct c as [[] [] [] [] [] [] [] []]; intros H; (reflexivity || discriminate H). Qed.

(** [strtoul] on a numeral: white space [ws], a sign [sg], the digits of
    [d], and a [tail] that does not go on with a digit. *)
Lemma strtoul_numeral (ws sg tail : string) (d : uint) :
  string_forall isspace ws = true -> sign_text sg -> d <> Nil -> stops isdigit tail ->
  strtoul (ws ++ sg ++ NilEmpty.string_of_uint d ++ tail) =
  let endptr :=
    (String.length ws + String.length sg + String.length (NilEmpty.string_of_uint d))%nat in
  if ULONG_MAX <? N.of_uint d then mk_strtoul ULONG_MAX endptr true
  else mk_strtoul (if String.eqb sg "-"
                   then (ULONG_MAX + 1 - N.of_uint d) mod (ULONG_MAX + 1)
                   else N.of_uint d) endptr false.
Proof.
  intros Hws Hsg Hd Ht.
  destruct (uint_head d Hd) as (c & rest & E & Hc).
  pose proof (read_digits_uint d tail 0 Ht) as R.
  rewrite uint_value_of_uint in R.
  unfold strtoul. rewrite skip_spaces_app; [|assumption|].
  - destruct Hsg; cbn [append].
    + rewrite E. cbn [append]. rewrite read_sign_digit by assumption.
      rewrite <- E at 1. change (String c (rest ++ tail)) with (String c rest ++ tail).
      rewrite <- E, R, E. cbn [String.length Nat.add]. reflexivity.
    + cbn [read_sign]. rewrite R, E. cbn [String.length Nat.add]. reflexivity.
    + cbn [read_sign]. rewrite R, E. cbn [String.length Nat.add]. reflexivity.
  - destruct Hsg; cbn [append]; try reflexivity.
    rewrite E. cbn [append stops]. now apply digit_not_space.
Qed.

Lemma to_uint_nonnil (n : N) : N.to_uint n <> Nil.
Proof. destruct n; [discriminate | apply DecimalPos.Unsigned.to_uint_nonnil]. Qed.

Lemma to_string_uint (n : N) : to_string n = NilEmpty.string_of_uint (N.to_uint n).
Proof.
  unfold to_string, NilZero.string_of_uint.
  pose proof (to_uint_nonnil n). destruct (N.to_uint n); congruence.
Qed.

Lemma strtoul_to_string (n : N) :
  n <= ULONG_MAX ->
  strtoul (to_string n) = mk_strtoul n (String.length (to_string n)) false.
Proof.
  intros Hn. rewrite to_string_uint.
  pose proof (strtoul_numeral "" "" "" (N.to_uint n) eq_refl sign_none
                (to_uint_nonnil n) I) as H.
  cbn [append String.length Nat.add] in H. rewrite append_nil_r in H.
  rewrite H, DecimalN.Unsigned.of_to.
  destruct (N.ltb_spec ULONG_MAX n); [lia | reflexivity].
Qed.

Lemma c_str_id (s : string) : occurs NUL s = false -> c_str s = s.
Proof.
  induction s as [|c s IH]; simpl; [reflexivity|].
  intros H. apply orb_false_elim in H. destruct H as [-> Hs].
  now rewrite IH.
Qed.

Lemma deref_end (s : string) : deref s (String.length s) = NUL.
Proof. induction s; simpl; auto. Qed.

Lemma stoul_to_string (n : N) : n <= ULONG_MAX -> stoul (to_string n) = Return n.
Proof.
  intros Hn. unfold stoul.
  rewrite c_str_id by (now apply to_string_free).
  rewrite (strtoul_to_string n Hn). cbn [strtoul_endptr strtoul_errno strtoul_num].
  destruct (to_string_head n) as (c & rest & -> & _). reflexivity.
Qed.

(** ** Key splitter *)

(** The loop of [split_keyexpr]: while [find] meets a delimiter the part
    before it is pushed and the search goes on after it; the last part is
    pushed at the end. *)
Lemma split_keyexpr_loop (d : ascii) (s : string) :
  split_keyexpr d s =
  match cut d s with
  | (p, Some rest) => p :: split_keyexpr d rest
  | (p, None) => [p]
  end.
Proof.
  induction s as [|c s IH]; simpl; [reflexivity|].
  destruct (Ascii.eqb c d); [reflexivity|].
  rewrite IH. now destruct (cut d s) as [p [rest|]].
Qed.

Lemma split_nonnil (d : ascii) (s : string) : split_keyexpr d s <> [].
Proof.
  induction s as [|c s IH]; simpl; [discriminate|].
  destruct (Ascii.eqb c d); [discriminate|].
  destruct (split_keyexpr d s); [congruence | discriminate].
Qed.

Lemma split_free (d : ascii) (s : string) :
  occurs d s = false -> split_keyexpr d s = [s].
Proof.
  induction s as [|c s IH]; simpl; [reflexivity|].
  intros H. apply orb_false_elim in H. destruct H as [-> Hs].
  now rewrite (IH Hs).
Qed.

Lemma split_app (d : ascii) (a b : string) :
  occurs d a = false ->
  split_keyexpr d (a ++ String d b) = a :: split_keyexpr d b.
Proof.
  induction a as [|c a IH]; simpl.
  - intros _. now rewrite Ascii.eqb_refl.
  - intros H. apply orb_false_elim in H. destruct H as [-> Ha].
    now rewrite (IH Ha).
Qed.

Lemma split_parts_free (d : ascii) (s : string) :
  Forall (fun p => occurs d p = false) (split_keyexpr d s).
Proof.
  induction s as [|c s IH]; simpl.
  - now repeat constructor.
  - destruct (Ascii.eqb_spec c d) as [->|Hc].
    + now constructor.
    + assert (Hcd : Ascii.eqb c d = false) by now destruct (Ascii.eqb_spec c d).
      destruct (split_keyexpr d s) as [|p ps].
      * constructor; [|constructor]. simpl. now rewrite Hcd.
      * inversion IH as [|? ? Hp Hps]; subst. constructor; [|assumption].
        simpl. now rewrite Hp, Hcd.
Qed.

Lemma join_cons (d : ascii) (p q : string) (rest : list string) :
  join d (p :: q :: rest) = p ++ String d (join d (q :: rest)).
Proof. reflexivity. Qed.

Lemma split_join (d : ascii) (parts : list string) :
  parts <> [] ->
  Forall (fun p => occurs d p = false) parts ->
  split_keyexpr d (join d parts) = parts.
Proof.
  induction parts as [|p rest IH]; [congruence|].
  intros _ H. inversion H as [|? ? Hp Hrest]; subst.
  destruct rest as [|q rest].
  - simpl. now apply split_free.
  - rewrite join_cons, split_app by assumption. f_equal. apply IH; [discriminate | assumption].
Qed.

Lemma join_split (d : ascii) (s : string) : join d (split_keyexpr d s) = s.
Proof.
  induction s as [|c s IH]; simpl; [reflexivity|].
  pose proof (split_nonnil d s) as Hn.
  destruct (split_keyexpr d s) as [|p ps] eqn:E; [congruence|].
  destruct (Ascii.eqb_spec c d) as [->|Hc].
  - rewrite join_cons, IH. reflexivity.
  - destruct ps as [|q ps].
    + simpl in *. now rewrite IH.
    + rewrite join_cons in *. cbn [append]. now rewrite IH.
Qed.

(** ** QoS codec *)

Lemma qos_to_keyexpr_eq (q : rmw_qos_profile_t) :
  qos_to_keyexpr q =
  to_string (reliability q) ++ String QOS_DELIMITER
    (to_string (durability q) ++ String QOS_DELIMITER
       (to_string (history q) ++ String QOS_HISTORY_DELIMITER (to_string (depth q)))).
Proof.
  unfold qos_to_keyexpr. cbn [append]. now rewrite !append_assoc.
Qed.

Lemma qos_to_keyexpr_split (q : rmw_qos_profile_t) :
  split_keyexpr QOS_DELIMITER (qos_to_keyexpr q) =
  [ to_string (reliability q); to_string (durability q);
    to_string (history q) ++ String QOS_HISTORY_DELIMITER (to_string (depth q)) ].
Proof.
  rewrite qos_to_keyexpr_eq.
  rewrite !split_app by (now apply to_string_free).
  rewrite split_free; [reflexivity|].
  rewrite occurs_app. cbn [occurs]. now rewrite !to_string_free.
Qed.

Lemma qos_history_split (h d : N) :
  split_keyexpr QOS_HISTORY_DELIMITER (to_string h ++ String QOS_HISTORY_DELIMITER (to_string d))
  = [to_string h; to_string d].
Proof.
  rewrite split_app by (now apply to_string_free).
  now rewrite split_free by (now apply to_string_free).
Qed.

Lemma qos_to_keyexpr_free (q : rmw_qos_profile_t) :
  occurs SLASH (qos_to_keyexpr q) = false.
Proof.
  rewrite qos_to_keyexpr_eq. rewrite !occurs_app. cbn [occurs].
  rewrite !occurs_app. cbn [occurs]. rewrite !occurs_app. cbn [occurs].
  now rewrite !to_string_free.
Qed.

Lemma qos_to_keyexpr_nonempty (q : rmw_qos_profile_t) : empty (qos_to_keyexpr q) = false.
Proof.
  rewrite qos_to_keyexpr_eq.
  destruct (to_string_head (reliability q)) as (c & rest & -> & _). reflexivity.
Qed.

(** The depth sub-part as [keyexpr_to_qos] reads it. *)
Lemma depth_to_string (d : N) :
  d <= ULONG_MAX ->
  let nptr := c_str (to_string d) in
  strtoul nptr = mk_strtoul d (String.length (to_string d)) false /\
  deref nptr (String.length (to_string d)) = NUL /\
  (exists n, String.length (to_string d) = S n).
Proof.
  intros Hd nptr. unfold nptr.
  rewrite c_str_id by (now apply to_string_free).
  repeat split.
  - now apply strtoul_to_string.
  - apply deref_end.
  - destruct (to_string_head d) as (c & rest & -> & _). simpl. eauto.
Qed.

(** Decoding an encoded profile whose policies are values of the tables. *)
Lemma keyexpr_to_qos_encoded (q : rmw_qos_profile_t) :
  qos_in_tables q -> keyexpr_to_qos (qos_to_keyexpr q) = Some (decoded_qos q).
Proof.
  intros (Hr & Hd & Hh & Hdepth).
  unfold keyexpr_to_qos. rewrite qos_to_keyexpr_split.
  cbn [length Nat.ltb Nat.leb part nth]. rewrite qos_history_split.
  cbn [length Nat.ltb Nat.leb part nth].
  assert (Ah : at_ String.eqb (to_string (history q)) str_to_qos_history
               = Return (history q)).
  { simpl in Hh. destruct Hh as [<-|[<-|[<-|[<-|[]]]]]; reflexivity. }
  assert (Ar : at_ String.eqb (to_string (reliability q)) str_to_qos_reliability
               = Return (reliability q)).
  { simpl in Hr. destruct Hr as [<-|[<-|[<-|[<-|[]]]]]; reflexivity. }
  assert (Ad : at_ String.eqb (to_string (durability q)) str_to_qos_durability
               = Return (durability q)).
  { simpl in Hd. destruct Hd as [<-|[<-|[<-|[<-|[]]]]]; reflexivity. }
  rewrite Ah, Ar, Ad. cbn [bind try_catch].
  destruct (depth_to_string (depth q) Hdepth) as (Es & Ed & n & En).
  rewrite Es. cbn [strtoul_endptr strtoul_errno strtoul_num].
  rewrite Ed, En. rewrite Ascii.eqb_refl. reflexivity.
Qed.

(** C6. QoS round trip: for a profile whose reliability, durability and
    history are values of the closed tables and whose depth fits
    [std::size_t], decoding the encoded profile succeeds and gives back the
    same reliability, durability, history and depth, with liveliness, lease
    duration, deadline and lifespan at their defaults. *)
Theorem qos_round_trip :
  forall q : rmw_qos_profile_t,
    In (reliability q) (map snd str_to_qos_reliability) ->
    In (durability q) (map snd str_to_qos_durability) ->
    In (history q) (map snd str_to_qos_history) ->
    depth q <= ULONG_MAX ->
    keyexpr_to_qos (qos_to_keyexpr q) =
    Some {| history := history q;
            depth := depth q;
            reliability := reliability q;
            durability := durability q;
            deadline := RMW_QOS_DEADLINE_DEFAULT;
            lifespan := RMW_QOS_LIFESPAN_DEFAULT;
            liveliness := RMW_QOS_POLICY_LIVELINESS_AUTOMATIC;
            liveliness_lease_duration := RMW_QOS_LIVELINESS_LEASE_DURATION_DEFAULT |}.
Proof.
  intros q Hr Hd Hh Hdepth.
  apply (keyexpr_to_qos_encoded q). unfold qos_in_tables. tauto.
Qed.

Lemma qos_round_trip_witness :
  keyexpr_to_qos (qos_to_keyexpr (mk_qos 2 10 2 1 (mk_time 5 0) (mk_time 0 7) 3 (mk_time 1 1)))
  = Some (mk_qos 2 10 2 1 RMW_QOS_DEADLINE_DEFAULT RMW_QOS_LIFESPAN_DEFAULT
            RMW_QOS_POLICY_LIVELINESS_AUTOMATIC RMW_QOS_LIVELINESS_LEASE_DURATION_DEFAULT).
Proof.
  apply (qos_round_trip (mk_qos 2 10 2 1 (mk_time 5 0) (mk_time 0 7) 3 (mk_time 1 1)));
    simpl; try tauto.
  unfold ULONG_MAX; lia.
Defined.

Lemma find_absent {V : Type} (key : string) (m : list (string * V)) :
  ~ In key (map fst m) -> find String.eqb key m = None.
Proof.
  induction m as [|[k v] m IH]; simpl; [reflexivity|].
  intros H. destruct (String.eqb_spec k key) as [->|Hk]; [tauto|].
  apply IH. tauto.
Qed.

Lemma c_str_app (a b : string) :
  occurs NUL a = false -> c_str (a ++ b) = a ++ c_str b.
Proof.
  induction a as [|c a IH]; simpl; [reflexivity|].
  intros H. apply orb_false_elim in H. destruct H as [-> Ha].
  now rewrite (IH Ha).
Qed.

Lemma c_str_stops (p : ascii -> bool) (s : string) : stops p s -> stops p (c_str s).
Proof.
  destruct s as [|c s]; simpl; [trivial|].
  intros H. now destruct (Ascii.eqb c NUL).
Qed.

Lemma sign_text_free (sg : string) : sign_text sg -> occurs NUL sg = false.
Proof. now destruct 1. Qed.

Lemma deref_app (a b : string) (k : nat) :
  deref (a ++ b) (String.length a + k) = deref b k.
Proof. induction a as [|c a IH]; simpl; [reflexivity | exact IH]. Qed.

Lemma length_app (a b : string) :
  String.length (a ++ b) = (String.length a + String.length b)%nat.
Proof. induction a; simpl; congruence. Qed.

(** The C string of a numeral followed by [tail]. *)
Lemma c_str_numeral (ws sg tail : string) (d : uint) :
  string_forall isspace ws = true -> sign_text sg ->
  c_str (ws ++ sg ++ NilEmpty.string_of_uint d ++ tail) =
  ws ++ sg ++ NilEmpty.string_of_uint d ++ c_str tail.
Proof.
  intros Hws Hsg.
  rewrite c_str_app by (now apply (string_forall_occurs isspace)).
  rewrite c_str_app by (now apply sign_text_free).
  rewrite c_str_app
    by (apply (string_forall_occurs isdigit); [apply uint_digits | reflexivity]).
  reflexivity.
Qed.

Lemma strtoul_numeral_endptr (ws sg tail : string) (d : uint) :
  string_forall isspace ws = true -> sign_text sg -> d <> Nil -> stops isdigit tail ->
  exists n,
    strtoul_endptr (strtoul (ws ++ sg ++ NilEmpty.string_of_uint d ++ tail)) = S n /\
    S n = String.length (ws ++ sg ++ NilEmpty.string_of_uint d).
Proof.
  intros Hws Hsg Hd Ht. rewrite strtoul_numeral by assumption. cbv zeta.
  destruct (uint_head d Hd) as (c & rest & E & _).
  exists (String.length ws + String.length sg + String.length rest)%nat.
  rewrite !length_app, E. cbn [String.length].
  destruct (ULONG_MAX <? N.of_uint d); cbn [strtoul_endptr]; lia.
Qed.

(** ** Entity codec: encoding *)

Lemma qos_encoding_eq (qos : rmw_qos_profile_t) : qos_encoding qos = qos_to_keyexpr qos.
Proof. unfold qos_encoding. rewrite qos_to_keyexpr_eq. reflexivity. Qed.

Lemma entity_tag_at (type : EntityType) :
  at_ EntityType_eqb type entity_to_str =
  match entity_tag type with
  | Some tag => Return tag
  | None => Throw std_out_of_range
  end.
Proof. destruct type; reflexivity. Qed.

Lemma token_format (id : string) (type : EntityType) (node_info : NodeInfo.t)
  (topic_info : option TopicInfo.t) (tag : string) :
  entity_tag type = Some tag ->
  Entity.token id type node_info topic_info
  = Return (keyexpr_format id tag node_info topic_info).
Proof.
  intros Ht. unfold Entity.token, keyexpr_format, namespace_segment, topic_suffix.
  rewrite entity_tag_at, Ht. cbn [bind]. f_equal.
  destruct topic_info as [topic|]; destruct (String.eqb (NodeInfo.ns_ node_info) "/");
    rewrite ?qos_encoding_eq; unfold ADMIN_SPACE;
    repeat first [rewrite append_assoc | progress cbn [append]];
    rewrite ?append_nil_r; reflexivity.
Qed.

(** C2. Encoding format: an [Entity] is constructed for each of the five
    entity types, and the key expression of every constructed [Entity],
    as [keyexpr()] returns it, is the admin-space tag, ["/"], the decimal
    domain id, ["/"], the id, ["/"], the 2-character tag of the type, the
    namespace segment and the mangled node name, followed, when there is a
    topic, by ["/"], the mangled topic name, ["/"], the topic type, ["/"]
    and the QoS encoding. *)
Theorem keyexpr_encoding_format :
  forall (id : string) (type : EntityType) (node_info : NodeInfo.t)
         (topic_info : option TopicInfo.t),
    (type <> Invalid -> exists e, Entity.new id type node_info topic_info = Return e) /\
    (forall e : Entity.t,
        Entity.new id type node_info topic_info = Return e ->
        exists tag : string,
          entity_tag type = Some tag /\
          String.length tag = 2%nat /\
          Entity.keyexpr e = keyexpr_format id tag node_info topic_info).
Proof.
  intros id type node_info topic_info. unfold Entity.new. split.
  - intros Hty.
    assert (exists tag, entity_tag type = Some tag) as [tag Ht]
      by (destruct type; simpl; eauto; congruence).
    rewrite (token_format _ _ _ _ _ Ht). cbn [bind]. eauto.
  - intros e. destruct (entity_tag type) as [tag|] eqn:Ht.
    + rewrite (token_format _ _ _ _ _ Ht). cbn [bind].
      intros E. injection E as <-. exists tag. repeat split.
      destruct type; simpl in Ht; inversion Ht; reflexivity.
    + unfold Entity.token. rewrite entity_tag_at, Ht. discriminate.
Qed.

Lemma keyexpr_encoding_format_witness :
  exists tag : string,
    entity_tag Publisher = Some tag /\
    String.length tag = 2%nat /\
    "@ros2_lv/0/q1w2e3r4t5y6/MP/_/talker/%chatter/std_msgs::msg::String/2:1:2,10"
    = keyexpr_format "q1w2e3r4t5y6" tag (NodeInfo.mk 0 "/" "talker" "")
        (Some (TopicInfo.mk "/chatter" "std_msgs::msg::String"
                 (mk_qos 2 10 2 1 RMW_QOS_DEADLINE_DEFAULT RMW_QOS_LIFESPAN_DEFAULT
                    RMW_QOS_POLICY_LIVELINESS_AUTOMATIC
                    RMW_QOS_LIVELINESS_LEASE_DURATION_DEFAULT))).
Proof.
  exact (proj2 (keyexpr_encoding_format "q1w2e3r4t5y6" Publisher (NodeInfo.mk 0 "/" "talker" "")
        (Some (TopicInfo.mk "/chatter" "std_msgs::msg::String"
                 (mk_qos 2 10 2 1 RMW_QOS_DEADLINE_DEFAULT RMW_QOS_LIFESPAN_DEFAULT
                    RMW_QOS_POLICY_LIVELINESS_AUTOMATIC
                    RMW_QOS_LIVELINESS_LEASE_DURATION_DEFAULT)))) _ eq_refl).
Defined.

(** ** Entity codec: decoding *)

Lemma new_fields (id : string) (type : EntityType) (node_info : NodeInfo.t)
  (topic_info : option TopicInfo.t) (e : Entity.t) :
  Entity.new id type node_info topic_info = Return e ->
  Entity.id e = id /\ Entity.type e = type /\
  Entity.node_info_ e = node_info /\ Entity.topic_info e = topic_info /\
  Entity.token id type node_info topic_info = Return (Entity.keyexpr e).
Proof.
  unfold Entity.new.
  destruct (Entity.token id type node_info topic_info) as [tok|x]; [|discriminate].
  cbn [bind]. intros E. injection E as <-. repeat split.
Qed.

(** What a successful [parse] has checked and built. *)
Lemma parse_success (parts : list string) (e : Entity.t) :
  Entity.parse parts = Return (Some e) ->
  (6 <= length parts)%nat /\
  existsb empty parts = false /\
  part parts 0 = ADMIN_SPACE /\
  exists (type : EntityType) (domain_id : N) (topic_info : option TopicInfo.t),
    find String.eqb (part parts 3) str_to_entity = Some type /\
    stoul (part parts 1) = Return domain_id /\
    (type = Node /\ topic_info = None \/
     type <> Node /\ (9 <= length parts)%nat /\
     exists qos, keyexpr_to_qos (part parts 8) = Some qos /\
       topic_info =
       Some (TopicInfo.mk (demangle_name (part parts 6)) (part parts 7) qos)) /\
    Entity.new (part parts 2) type
      (NodeInfo.mk domain_id
         (if String.eqb (part parts 4) "_" then "/" else "/" ++ part parts 4)
         (demangle_name (part parts 5)) EmptyString)
      topic_info = Return e.
Proof.
  unfold Entity.parse.
  destruct (Nat.ltb_spec (length parts) 6) as [|L6]; [discriminate|].
  destruct (existsb empty parts); [discriminate|].
  destruct (String.eqb_spec (part parts 0) ADMIN_SPACE) as [A|]; [|discriminate].
  cbn [negb].
  destruct (find String.eqb (part parts 3) str_to_entity) as [type|]; [|discriminate].
  destruct (stoul (part parts 1)) as [domain_id|]; [|discriminate].
  cbn [bind]. intros H. repeat split; try assumption.
  exists type, domain_id.
  destruct (EntityType_eqb type Node) eqn:T; cbn [negb] in H.
  - exists None. repeat split.
    + left. destruct type; try discriminate T. now split.
    + destruct (Entity.new _ _ _ None) as [e'|]; [|discriminate].
      cbn [bind] in H. congruence.
  - destruct (Nat.ltb_spec (length parts) 9) as [|L9]; [discriminate|].
    destruct (keyexpr_to_qos (part parts 8)) as [qos|]; [|discriminate].
    eexists. repeat split.
    + right. split; [intros ->; discriminate T|]. split; [assumption|].
      exists qos. split; reflexivity.
    + destruct (Entity.new _ _ _ (Some _)) as [e'|]; [|discriminate].
      cbn [bind] in H. congruence.
Qed.

(** C5, as amended. Namespace decoding: on every token that [Entity::make]
    accepts, segment 4 equal to ["_"] gives the namespace ["/"], and any
    other segment 4 gives ["/"] followed by that segment, character for
    character (the namespace is not demangled). *)
Theorem namespace_decoding :
  forall (keyexpr : string) (e : Entity.t),
    Entity.make keyexpr = Return (Some e) ->
    let segment4 := part (split_keyexpr SLASH keyexpr) 4 in
    (segment4 = "_" -> Entity.node_namespace e = "/") /\
    (segment4 <> "_" -> Entity.node_namespace e = "/" ++ segment4).
Proof.
  intros keyexpr e H. unfold Entity.make in H.
  apply parse_success in H.
  destruct H as (_ & _ & _ & type & domain_id & topic_info & _ & _ & _ & H).
  apply new_fields in H. destruct H as (_ & _ & Hn & _).
  unfold Entity.node_namespace. rewrite Hn. cbn [NodeInfo.ns_].
  cbv zeta. destruct (String.eqb_spec (part (split_keyexpr SLASH keyexpr) 4) "_");
    split; congruence.
Qed.

Lemma namespace_decoding_witness :
  Entity.node_namespace
    (Entity.mk "abc" Node (NodeInfo.mk 0 "/foo" "mynode" "") None
       "@ros2_lv/0/abc/NN/foo/mynode") = "/foo".
Proof.
  refine (proj2 (namespace_decoding "@ros2_lv/0/abc/NN/foo/mynode" _ eq_refl) _).
  discriminate.
Defined.

(** C5, as stated, fails: the token below is accepted, its segment 4 is
    ["foo"], and the namespace of the result is ["/foo"], not the segment
    as it is. *)
Lemma namespace_as_is_counterexample :
  exists e : Entity.t,
    Entity.make "@ros2_lv/0/abc/NN/foo/mynode" = Return (Some e) /\
    part (split_keyexpr SLASH "@ros2_lv/0/abc/NN/foo/mynode") 4 = "foo" /\
    Entity.node_namespace e <> "foo".
Proof.
  eexists. split; [reflexivity|]. split; [reflexivity|]. discriminate.
Qed.

(** C9. Enclave: every [Entity] that [Entity::make] builds from a key
    expression has the empty enclave; and the token of an [Entity] built
    from facts is the same whatever the enclave of its node, so the
    enclave cannot be read back from the key expression. *)
Theorem parsed_enclave_empty :
  (forall (keyexpr : string) (e : Entity.t),
      Entity.make keyexpr = Return (Some e) -> Entity.node_enclave e = EmptyString) /\
  (forall (id : string) (type : EntityType) (domain_id : N) (ns name : string)
          (enclave enclave' : string) (topic_info : option TopicInfo.t),
      Entity.token id type (NodeInfo.mk domain_id ns name enclave) topic_info =
      Entity.token id type (NodeInfo.mk domain_id ns name enclave') topic_info).
Proof.
  split; [|reflexivity].
  intros keyexpr e H.
  unfold Entity.make in H. apply parse_success in H.
  destruct H as (_ & _ & _ & type & domain_id & topic_info & _ & _ & _ & H).
  apply new_fields in H. destruct H as (_ & _ & Hn & _).
  unfold Entity.node_enclave. now rewrite Hn.
Qed.

Lemma parsed_enclave_empty_witness :
  Entity.node_enclave
    (Entity.mk "abc" Node (NodeInfo.mk 0 "/" "mynode" "") None "@ros2_lv/0/abc/NN/_/mynode")
  = EmptyString.
Proof.
  exact (proj1 parsed_enclave_empty "@ros2_lv/0/abc/NN/_/mynode" _ eq_refl).
Defined.

(** The structural failures that [Entity::make] reports with
    [std::nullopt]: fewer than 6 segments, an empty segment, a segment 0
    other than the admin space, a segment 3 that is not an entity tag. *)
Lemma make_structural_failure (keyexpr : string) :
  let parts := split_keyexpr SLASH keyexpr in
  (length parts < 6)%nat \/
  In EmptyString parts \/
  part parts 0 <> ADMIN_SPACE \/
  ~ In (part parts 3) (map fst str_to_entity) ->
  Entity.make keyexpr = Return None.
Proof.
  intros parts H. unfold Entity.make, Entity.parse. fold parts.
  destruct (Nat.ltb_spec (length parts) 6) as [|L6]; [reflexivity|].
  destruct (existsb empty parts) eqn:X; [reflexivity|].
  destruct (String.eqb_spec (part parts 0) ADMIN_SPACE) as [A|]; [|reflexivity].
  cbn [negb].
  destruct (find String.eqb (part parts 3) str_to_entity) as [type|] eqn:F; [|reflexivity].
  exfalso. destruct H as [H|[H|[H|H]]].
  - lia.
  - assert (existsb empty parts = true) by (apply existsb_exists; now exists EmptyString).
    congruence.
  - contradiction.
  - apply find_absent in H. congruence.
Qed.

(** A token for an entity other than a node with fewer than 9 segments is
    refused with [std::nullopt] once its domain id has been converted. *)
Lemma make_without_topic_info (keyexpr : string) (type : EntityType) (domain_id : N) :
  let parts := split_keyexpr SLASH keyexpr in
  find String.eqb (part parts 3) str_to_entity = Some type ->
  type <> Node ->
  (length parts < 9)%nat ->
  stoul (part parts 1) = Return domain_id ->
  Entity.make keyexpr = Return None.
Proof.
  intros parts F T L9 D. unfold Entity.make, Entity.parse. fold parts.
  destruct (length parts <? 6)%nat; [reflexivity|].
  destruct (existsb empty parts); [reflexivity|].
  destruct (negb (part parts 0 =? ADMIN_SPACE)%string); [reflexivity|].
  rewrite F, D. cbn [bind].
  assert (E : EntityType_eqb type Node = false) by (destruct type; try reflexivity; congruence).
  rewrite E. cbn [negb].
  destruct (Nat.ltb_spec (length parts) 9); [reflexivity | lia].
Qed.

(** Whatever [std::stoul] throws on segment 1 leaves [Entity::make], for
    every token that passes the checks made before the conversion. *)
Lemma make_stoul_throws (keyexpr : string) (type : EntityType) (x : exception) :
  let parts := split_keyexpr SLASH keyexpr in
  (6 <= length parts)%nat ->
  ~ In EmptyString parts ->
  part parts 0 = ADMIN_SPACE ->
  find String.eqb (part parts 3) str_to_entity = Some type ->
  stoul (part parts 1) = Throw x ->
  Entity.make keyexpr = Throw x.
Proof.
  intros parts L6 Hne A F D. unfold Entity.make, Entity.parse. fold parts.
  destruct (Nat.ltb_spec (length parts) 6); [lia|].
  destruct (existsb empty parts) eqn:X.
  - apply existsb_exists in X. destruct X as (p & Hp & E).
    apply empty_true in E. subst p. contradiction.
  - rewrite A, String.eqb_refl, F, D. reflexivity.
Qed.

(** C3. The code at the failing input: the token has the admin space, 6
    non-empty segments and the publisher tag, so it is a token for an
    entity other than a node with fewer than 9 segments; the domain id
    ["x"] is converted before the number of segments is looked at, and
    [Entity::make] leaves with [std::invalid_argument] instead of
    returning [std::nullopt]. *)
Theorem make_short_token_throws :
  let keyexpr := "@ros2_lv/x/abc/MP/_/mynode" in
  let parts := split_keyexpr SLASH keyexpr in
  length parts = 6%nat /\
  find String.eqb (part parts 3) str_to_entity = Some Publisher /\
  Entity.make keyexpr = Throw std_invalid_argument.
Proof. repeat split. Qed.

(** C4. The code at the failing inputs: both tokens pass the checks on the
    number of segments, the empty segments, the admin space and the entity
    tag; the domain id of the first is not a number and the domain id of
    the second is above [ULONG_MAX]; [std::stoul] throws and the exception
    leaves [Entity::make]. *)
Theorem make_domain_id_throws :
  Entity.make "@ros2_lv/abc/id/NN/_/node" = Throw std_invalid_argument /\
  Entity.make "@ros2_lv/18446744073709551616/id/NN/_/node" = Throw std_out_of_range.
Proof. split; reflexivity. Qed.

(** ** Excess segments *)

Lemma part_firstn (n i : nat) (parts : list string) :
  (i < n)%nat -> part (firstn n parts) i = part parts i.
Proof.
  unfold part. revert i parts.
  induction n as [|n IH]; intros i parts Hi; [lia|].
  destruct parts as [|p parts]; [reflexivity|].
  destruct i as [|i]; [reflexivity|]. cbn [firstn nth]. apply IH. lia.
Qed.

Lemma existsb_empty_false (parts : list string) :
  ~ In EmptyString parts -> existsb empty parts = false.
Proof.
  intros H. destruct (existsb empty parts) eqn:X; [|reflexivity].
  apply existsb_exists in X. destruct X as (p & Hp & E).
  apply empty_true in E. subst p. contradiction.
Qed.

Lemma firstn_In (n : nat) (p : string) (parts : list string) :
  In p (firstn n parts) -> In p parts.
Proof.
  revert parts. induction n as [|n IH]; intros [|q parts]; simpl; try tauto.
  intros [->|H]; [now left | right; now apply IH].
Qed.

Lemma firstn_Forall (P : string -> Prop) (n : nat) (parts : list string) :
  Forall P parts -> Forall P (firstn n parts).
Proof.
  intros H. apply Forall_forall. intros p Hp.
  rewrite Forall_forall in H. now apply H, (firstn_In n).
Qed.

Lemma find_node_tag (tag : string) (type : EntityType) :
  find String.eqb tag str_to_entity = Some type -> type <> Node -> tag <> NODE_STR.
Proof. intros F T ->. simpl in F. congruence. Qed.

(** [parse] reads the first [n] parts only, once there are enough. *)
Lemma parse_firstn (n : nat) (parts : list string) :
  ~ In EmptyString parts ->
  (n <= length parts)%nat ->
  (6 <= n)%nat ->
  (part parts 3 <> NODE_STR -> (9 <= n)%nat) ->
  Entity.parse (firstn n parts) = Entity.parse parts.
Proof.
  intros Hne Hlen H6 H9. unfold Entity.parse.
  assert (Ln : length (firstn n parts) = n) by (rewrite length_firstn; lia).
  rewrite Ln.
  rewrite (existsb_empty_false parts Hne).
  rewrite (existsb_empty_false (firstn n parts))
    by (intros H; now apply Hne, (firstn_In n)).
  rewrite (part_firstn n 0), (part_firstn n 1), (part_firstn n 2), (part_firstn n 3),
    (part_firstn n 4), (part_firstn n 5) by lia.
  destruct (Nat.ltb_spec n 6); [lia|].
  destruct (Nat.ltb_spec (length parts) 6); [lia|].
  destruct (negb (part parts 0 =? ADMIN_SPACE)%string); [reflexivity|].
  destruct (find String.eqb (part parts 3) str_to_entity) as [type|] eqn:F; [|reflexivity].
  destruct (stoul (part parts 1)) as [domain_id|]; [|reflexivity]. cbn [bind].
  destruct (EntityType_eqb type Node) eqn:T; cbn [negb]; [reflexivity|].
  assert (9 <= n)%nat.
  { apply H9, (find_node_tag _ type F). intros ->. discriminate T. }
  destruct (Nat.ltb_spec n 9); [lia|].
  destruct (Nat.ltb_spec (length parts) 9); [lia|].
  rewrite (part_firstn n 6), (part_firstn n 7), (part_firstn n 8) by lia. reflexivity.
Qed.

(** C10. Excess segments: when all the segments of a key expression are
    non-empty and there are at least as many as [Entity::make] reads for
    the tag (6 for a node, 9 otherwise), the segments after them play no
    part: if the key expression cut after those segments is decoded to an
    [Entity], the whole key expression is decoded to the same [Entity]. *)
Theorem excess_segments_ignored :
  forall (keyexpr : string) (e : Entity.t),
    let parts := split_keyexpr SLASH keyexpr in
    let n := expected_segments parts in
    ~ In EmptyString parts ->
    (n <= length parts)%nat ->
    Entity.make (join SLASH (firstn n parts)) = Return (Some e) ->
    Entity.make keyexpr = Return (Some e).
Proof.
  intros keyexpr e parts n Hne Hlen.
  assert (H6 : (6 <= n)%nat).
  { unfold n, expected_segments. destruct (part parts 3 =? NODE_STR)%string; lia. }
  unfold Entity.make. fold parts.
  rewrite split_join.
  - rewrite parse_firstn; try assumption; [trivial|].
    intros Hn. unfold n, expected_segments.
    destruct (String.eqb_spec (part parts 3) NODE_STR); [contradiction | lia].
  - intros E. apply (f_equal (@length string)) in E.
    rewrite length_firstn in E. simpl in E. lia.
  - apply firstn_Forall, split_parts_free.
Qed.

Lemma excess_segments_ignored_witness :
  Entity.make "@ros2_lv/7/abc/NN/ns/mynode/more/and/more" =
  Return (Some (Entity.mk "abc" Node (NodeInfo.mk 7 "/ns" "mynode" "") None
                  "@ros2_lv/7/abc/NN/ns/mynode")).
Proof.
  apply (excess_segments_ignored "@ros2_lv/7/abc/NN/ns/mynode/more/and/more").
  - simpl. intros [H|[H|[H|[H|[H|[H|[H|[H|[H|[]]]]]]]]]]; discriminate H.
  - vm_compute. lia.
  - reflexivity.
Defined.

(** ** Round trip *)

Lemma namespace_segment_part (ns : string) :
  single_segment_namespace ns ->
  namespace_segment ns = String SLASH (namespace_part ns ++ "/") /\
  segment (namespace_part ns) /\
  (if String.eqb (namespace_part ns) "_" then "/" else "/" ++ namespace_part ns) = ns.
Proof.
  intros [->|(seg & -> & (Hne & Hfree) & Hs)].
  - repeat split. discriminate.
  - destruct seg as [|c seg]; [congruence|].
    unfold namespace_segment. cbn [namespace_part].
    replace (String.eqb (String SLASH (String c seg)) "/") with false
      by (unfold SLASH; simpl; now destruct seg).
    repeat split; try assumption.
    destruct (String.eqb_spec (String c seg) "_"); [contradiction | reflexivity].
Qed.

Lemma keyexpr_format_join (id tag : string) (node_info : NodeInfo.t)
  (topic_info : option TopicInfo.t) :
  single_segment_namespace (NodeInfo.ns_ node_info) ->
  keyexpr_format id tag node_info topic_info
  = join SLASH (keyexpr_parts id tag node_info topic_info).
Proof.
  intros Hns. destruct (namespace_segment_part _ Hns) as (E & _ & _).
  unfold keyexpr_format, keyexpr_parts, topic_suffix, topic_parts. rewrite E.
  destruct topic_info as [topic|]; cbn [Datatypes.app]; rewrite ?join_cons; cbn [join];
    rewrite ?qos_encoding_eq; unfold ADMIN_SPACE, SLASH;
    repeat first [rewrite append_assoc | progress cbn [append]];
    rewrite ?append_nil_r; reflexivity.
Qed.

Lemma entity_tag_facts (type : EntityType) :
  type <> Invalid ->
  exists tag : string,
    entity_tag type = Some tag /\
    segment tag /\
    find String.eqb tag str_to_entity = Some type.
Proof.
  intros H. destruct type; [congruence | eexists; repeat split; discriminate ..].
Qed.

Lemma segment_nonempty (s : string) : s <> EmptyString -> empty s = false.
Proof. apply empty_false. Qed.

Lemma keyexpr_parts_free (id tag : string) (node_info : NodeInfo.t)
  (topic_info : option TopicInfo.t) :
  occurs SLASH id = false ->
  occurs SLASH tag = false ->
  occurs SLASH (namespace_part (NodeInfo.ns_ node_info)) = false ->
  match topic_info with
  | None => True
  | Some topic => occurs SLASH (TopicInfo.type_ topic) = false
  end ->
  Forall (fun p => occurs SLASH p = false) (keyexpr_parts id tag node_info topic_info).
Proof.
  intros Hid Htag Hns Htopic. unfold keyexpr_parts.
  repeat (apply Forall_cons; [first [assumption | reflexivity
                                     | apply to_string_free; reflexivity
                                     | apply mangle_no_slash] |]).
  destruct topic_info as [topic|]; cbn [topic_parts Datatypes.app].
  - repeat (apply Forall_cons; [first [assumption | apply mangle_no_slash
                                       | apply qos_to_keyexpr_free] |]).
    constructor.
  - constructor.
Qed.

(** [parse] on the segments of the key expression of round-trip facts. *)
Lemma parse_keyexpr_parts (id tag : string) (type : EntityType) (node_info : NodeInfo.t)
  (topic_info : option TopicInfo.t) :
  round_trip_facts id type node_info topic_info ->
  segment tag ->
  find String.eqb tag str_to_entity = Some type ->
  Entity.parse (keyexpr_parts id tag node_info topic_info) =
  let* e :=
    Entity.new id type
      (NodeInfo.mk (NodeInfo.domain_id_ node_info) (NodeInfo.ns_ node_info)
         (NodeInfo.name_ node_info) EmptyString)
      (option_map decoded_topic topic_info) in
  Return (Some e).
Proof.
  intros (Hty & (Hid & _) & Hd & Hns & Hname & Hesc & Htopic) (Htag & _) Hfind.
  destruct (namespace_segment_part _ Hns) as (_ & (Hseg & _) & Ens).
  unfold keyexpr_parts, Entity.parse.
  assert (X : existsb empty
                ([ADMIN_SPACE; to_string (NodeInfo.domain_id_ node_info); id; tag;
                  namespace_part (NodeInfo.ns_ node_info);
                  mangle_name (NodeInfo.name_ node_info)] ++ topic_parts topic_info)
              = false).
  { apply existsb_empty_false. intros H. apply in_app_or in H.
    destruct H as [H|H].
    - simpl in H.
      destruct H as [H|[H|[H|[H|[H|[H|[]]]]]]]; try congruence; try discriminate H.
      + pose proof (to_string_nonempty (NodeInfo.domain_id_ node_info)) as E.
        rewrite H in E. discriminate E.
      + pose proof (mangle_empty (NodeInfo.name_ node_info)) as E.
        rewrite H, (segment_nonempty _ Hname) in E. discriminate E.
    - destruct topic_info as [topic|]; [|contradiction].
      destruct Htopic as (_ & Htn & _ & (Htt & _) & _). simpl in H.
      destruct H as [H|[H|[H|[]]]]; try congruence.
      + pose proof (mangle_empty (TopicInfo.name_ topic)) as E.
        rewrite H, (segment_nonempty _ Htn) in E. discriminate E.
      + pose proof (qos_to_keyexpr_nonempty (TopicInfo.qos_ topic)) as E.
        rewrite H in E. discriminate E. }
  rewrite X.
  destruct topic_info as [topic|]; cbn [topic_parts Datatypes.app Datatypes.length part nth option_map].
  - destruct Htopic as (Hnn & Htn & Htesc & _ & Hr & Hdu & Hh & Hdepth).
    change (9 <? 6)%nat with false. change (9 <? 9)%nat with false. cbv iota.
    rewrite String.eqb_refl. cbn [negb]. rewrite Hfind.
    rewrite stoul_to_string by assumption. cbn [bind].
    rewrite Ens, !demangle_mangle by assumption.
    replace (EntityType_eqb type Node) with false
      by (destruct type; try reflexivity; congruence).
    cbn [negb]. rewrite keyexpr_to_qos_encoded by (unfold qos_in_tables; tauto). reflexivity.
  - subst type. change (6 <? 6)%nat with false. cbv iota.
    rewrite String.eqb_refl. cbn [negb]. rewrite Hfind.
    rewrite stoul_to_string by assumption. cbn [bind].
    rewrite Ens, demangle_mangle by assumption. reflexivity.
Qed.

Lemma topic_suffix_decoded (topic_info : option TopicInfo.t) :
  topic_suffix (option_map decoded_topic topic_info) = topic_suffix topic_info.
Proof. destruct topic_info; reflexivity. Qed.

(** C1, as amended. Round trip: for entity facts of one of the five types
    whose id is one segment, whose domain id fits [std::size_t], whose
    namespace is ["/"] or ["/"] followed by one segment other than ["_"],
    whose node name is non-empty and free of ['%'], and which have no topic
    for a node and otherwise a topic with a non-empty name free of ['%'], a
    non-empty type free of ["/"] and a QoS profile from the tables, the
    [Entity] is constructed, and [Entity::make] on its key expression
    gives an [Entity] with the same type, id, domain id, namespace and node
    name, with the same topic up to the QoS fields fixed to their defaults,
    and with the same key expression. *)
Theorem entity_round_trip :
  forall (id : string) (type : EntityType) (node_info : NodeInfo.t)
         (topic_info : option TopicInfo.t),
    round_trip_facts id type node_info topic_info ->
    exists e e' : Entity.t,
      Entity.new id type node_info topic_info = Return e /\
      Entity.make (Entity.keyexpr e) = Return (Some e') /\
      Entity.type e' = type /\
      Entity.id e' = id /\
      NodeInfo.domain_id_ (Entity.node_info_ e') = NodeInfo.domain_id_ node_info /\
      Entity.node_namespace e' = NodeInfo.ns_ node_info /\
      Entity.node_name e' = NodeInfo.name_ node_info /\
      Entity.topic_info e' = option_map decoded_topic topic_info /\
      Entity.keyexpr e' = Entity.keyexpr e.
Proof.
  intros id type node_info topic_info Hf.
  pose proof Hf as (Hty & (_ & Hid) & _ & Hns & _ & _ & Htopic).
  destruct (entity_tag_facts type Hty) as (tag & Ht & Hseg & Hfind).
  destruct (namespace_segment_part _ Hns) as (_ & (_ & Hnsfree) & _).
  set (node_info' := NodeInfo.mk (NodeInfo.domain_id_ node_info) (NodeInfo.ns_ node_info)
                       (NodeInfo.name_ node_info) EmptyString).
  set (key := keyexpr_format id tag node_info topic_info).
  exists (Entity.mk id type node_info topic_info key),
         (Entity.mk id type node_info' (option_map decoded_topic topic_info) key).
  assert (Enew : Entity.new id type node_info' (option_map decoded_topic topic_info)
                 = Return (Entity.mk id type node_info'
                             (option_map decoded_topic topic_info) key)).
  { unfold Entity.new. rewrite (token_format _ _ _ _ _ Ht). cbn [bind].
    unfold keyexpr_format. rewrite topic_suffix_decoded. reflexivity. }
  split; [unfold Entity.new; rewrite (token_format _ _ _ _ _ Ht); reflexivity|].
  split; [|repeat split].
  assert (Esplit : split_keyexpr SLASH key = keyexpr_parts id tag node_info topic_info).
  { unfold key. rewrite keyexpr_format_join by assumption.
    apply split_join; [discriminate|].
    apply keyexpr_parts_free; try assumption; [apply Hseg|].
    destruct topic_info as [topic|]; [|exact I].
    now destruct Htopic as (_ & _ & _ & (_ & Htt) & _). }
  unfold Entity.make, Entity.keyexpr. cbn [Entity.keyexpr_]. rewrite Esplit.
  rewrite (parse_keyexpr_parts id tag type node_info topic_info Hf Hseg Hfind).
  fold node_info'. rewrite Enew. reflexivity.
Qed.

Lemma entity_round_trip_witness :
  exists e e' : Entity.t,
    Entity.new "q1w2e3r4t5y6" Publisher (NodeInfo.mk 0 "/" "talker" "enclave")
      (Some (TopicInfo.mk "/chatter" "std_msgs::msg::String"
               (mk_qos 2 10 2 1 (mk_time 1 0) (mk_time 2 0) 3 (mk_time 3 0)))) = Return e /\
    Entity.make (Entity.keyexpr e) = Return (Some e') /\
    Entity.topic_info e' =
    Some (TopicInfo.mk "/chatter" "std_msgs::msg::String"
            (mk_qos 2 10 2 1 RMW_QOS_DEADLINE_DEFAULT RMW_QOS_LIFESPAN_DEFAULT
               RMW_QOS_POLICY_LIVELINESS_AUTOMATIC RMW_QOS_LIVELINESS_LEASE_DURATION_DEFAULT)).
Proof.
  destruct (entity_round_trip "q1w2e3r4t5y6" Publisher (NodeInfo.mk 0 "/" "talker" "enclave")
      (Some (TopicInfo.mk "/chatter" "std_msgs::msg::String"
               (mk_qos 2 10 2 1 (mk_time 1 0) (mk_time 2 0) 3 (mk_time 3 0)))))
    as (e & e' & H1 & H2 & _ & _ & _ & _ & _ & H3 & _).
  - unfold round_trip_facts, segment, single_segment_namespace, qos_in_tables.
    simpl. unfold ULONG_MAX.
    repeat split; try discriminate; try reflexivity; try lia; tauto.
  - exists e, e'. repeat split; assumption.
Defined.

(** C1, as stated, fails: the facts below are valid for the claim (a node
    without topic, a non-empty namespace and a non-empty node name, no
    ['%'] anywhere). The namespace ["/_"] is written as the segment ["_"],
    which is decoded as the root namespace ["/"]; and the namespace
    ["/a/b"] takes two segments of the key expression, so that the decoded
    [Entity] has the namespace ["/a"] and the node name ["b"]. *)
Lemma entity_round_trip_counterexample :
  (occurs SLASH_REPLACEMENT "/_" = false /\
   occurs SLASH_REPLACEMENT "n" = false /\
   exists e e' : Entity.t,
     Entity.new "x" Node (NodeInfo.mk 0 "/_" "n" "") None = Return e /\
     Entity.make (Entity.keyexpr e) = Return (Some e') /\
     Entity.node_namespace e' <> "/_") /\
  (occurs SLASH_REPLACEMENT "/a/b" = false /\
   occurs SLASH_REPLACEMENT "n" = false /\
   exists e e' : Entity.t,
     Entity.new "x" Node (NodeInfo.mk 0 "/a/b" "n" "") None = Return e /\
     Entity.make (Entity.keyexpr e) = Return (Some e') /\
     Entity.node_namespace e' <> "/a/b" /\
     Entity.node_name e' <> "n").
Proof.
  split; (split; [reflexivity|]); (split; [reflexivity|]);
    do 2 eexists; (split; [reflexivity|]); (split; [reflexivity|]).
  - discriminate.
  - split; discriminate.
Qed.

(** The other conditions of the round trip are needed as well: a publisher
    whose topic name, or whose topic type, is empty gets a key expression
    with an empty segment, and so does an entity with an empty id;
    [Entity::make] refuses them. A QoS policy outside the tables (here
    reliability 4) is written to the key expression and refused when read
    back. *)
Example round_trip_conditions :
  let qos := mk_qos 1 5 1 1 RMW_QOS_DEADLINE_DEFAULT RMW_QOS_LIFESPAN_DEFAULT
               RMW_QOS_POLICY_LIVELINESS_AUTOMATIC RMW_QOS_LIVELINESS_LEASE_DURATION_DEFAULT in
  let qos4 := mk_qos 1 5 4 1 RMW_QOS_DEADLINE_DEFAULT RMW_QOS_LIFESPAN_DEFAULT
               RMW_QOS_POLICY_LIVELINESS_AUTOMATIC RMW_QOS_LIVELINESS_LEASE_DURATION_DEFAULT in
  let node := NodeInfo.mk 0 "/" "n" "" in
  let decode (r : result Entity.t) : result (option Entity.t) :=
    let* e := r in Entity.make (Entity.keyexpr e) in
  decode (Entity.new "x" Publisher node (Some (TopicInfo.mk "" "T" qos))) = Return None /\
  decode (Entity.new "x" Publisher node (Some (TopicInfo.mk "/t" "" qos))) = Return None /\
  decode (Entity.new "" Node node None) = Return None /\
  decode (Entity.new "x" Publisher node (Some (TopicInfo.mk "/t" "T" qos4))) = Return None.
Proof. repeat split. Qed.

(** ** Scenarios of the specification *)

Example scenario_encode_publisher :
  Entity.new "q1w2e3r4t5y6" Publisher (NodeInfo.mk 0 "/" "talker" "")
    (Some (TopicInfo.mk "/chatter" "std_msgs::msg::String"
             (mk_qos RMW_QOS_POLICY_HISTORY_KEEP_ALL 10
                RMW_QOS_POLICY_RELIABILITY_BEST_EFFORT
                RMW_QOS_POLICY_DURABILITY_TRANSIENT_LOCAL
                RMW_QOS_DEADLINE_DEFAULT RMW_QOS_LIFESPAN_DEFAULT
                RMW_QOS_POLICY_LIVELINESS_AUTOMATIC
                RMW_QOS_LIVELINESS_LEASE_DURATION_DEFAULT)))
  = Return
      (Entity.mk "q1w2e3r4t5y6" Publisher (NodeInfo.mk 0 "/" "talker" "")
         (Some (TopicInfo.mk "/chatter" "std_msgs::msg::String"
                  (mk_qos 2 10 2 1 RMW_QOS_DEADLINE_DEFAULT RMW_QOS_LIFESPAN_DEFAULT
                     RMW_QOS_POLICY_LIVELINESS_AUTOMATIC
                     RMW_QOS_LIVELINESS_LEASE_DURATION_DEFAULT)))
         "@ros2_lv/0/q1w2e3r4t5y6/MP/_/talker/%chatter/std_msgs::msg::String/2:1:2,10").
Proof. reflexivity. Qed.

Example scenario_decode_node :
  Entity.make "@ros2_lv/0/abc/NN/_/mynode"
  = Return (Some (Entity.mk "abc" Node (NodeInfo.mk 0 "/" "mynode" "") None
                    "@ros2_lv/0/abc/NN/_/mynode")).
Proof. reflexivity. Qed.

Example scenario_decode_publisher_without_topic :
  Entity.make "@ros2_lv/0/abc/MP/_/mynode" = Return None.
Proof. reflexivity. Qed.

Example scenario_decode_wrong_admin_space :
  Entity.make "@ros2_xx/0/abc/NN/_/mynode" = Return None.
Proof. reflexivity. Qed.

Example scenario_decode_qos_unknown_reliability :
  keyexpr_to_qos "99:1:1,5" = None.
Proof. reflexivity. Qed.

Example scenario_qos_docstring :
  qos_to_keyexpr
    (mk_qos RMW_QOS_POLICY_HISTORY_KEEP_LAST 10 RMW_QOS_POLICY_RELIABILITY_RELIABLE
       RMW_QOS_POLICY_DURABILITY_VOLATILE RMW_QOS_DEADLINE_DEFAULT RMW_QOS_LIFESPAN_DEFAULT
       RMW_QOS_POLICY_LIVELINESS_AUTOMATIC RMW_QOS_LIVELINESS_LEASE_DURATION_DEFAULT)
  = "1:2:1,10".
Proof. reflexivity. Qed.

Example split_keeps_empty_parts :
  split_keyexpr SLASH "/a//b/" = [""; "a"; ""; "b"; ""].
Proof. reflexivity. Qed.

(** * Further properties of the code *)

(** ** Key splitter *)

Lemma split_length (d : ascii) (s : string) :
  length (split_keyexpr d s) = S (count d s).
Proof.
  induction s as [|c s IH]; simpl; [reflexivity|].
  destruct (Ascii.eqb c d); simpl; [now rewrite IH|].
  pose proof (split_nonnil d s) as Hn.
  destruct (split_keyexpr d s) as [|p ps]; [congruence | exact IH].
Qed.

(** X1. [split_keyexpr] loses nothing: joining its parts with the delimiter
    gives the text back; there is one part more than there are delimiters
    in the text, so at least one part, also for the empty text; and no part
    contains the delimiter. *)
Theorem split_keyexpr_lossless :
  forall (delim : ascii) (keyexpr : string),
    join delim (split_keyexpr delim keyexpr) = keyexpr /\
    length (split_keyexpr delim keyexpr) = S (count delim keyexpr) /\
    Forall (fun p => occurs delim p = false) (split_keyexpr delim keyexpr).
Proof.
  intros delim keyexpr. split; [apply join_split|].
  split; [apply split_length | apply split_parts_free].
Qed.

(** X2. [split_keyexpr] undoes a join: a non-empty list of parts, none of
    which contains the delimiter, is what [split_keyexpr] returns on the
    parts joined by the delimiter; empty parts are kept. *)
Theorem split_keyexpr_of_join :
  forall (delim : ascii) (parts : list string),
    parts <> [] ->
    Forall (fun p => occurs delim p = false) parts ->
    split_keyexpr delim (join delim parts) = parts.
Proof. intros delim parts. apply split_join. Qed.

Lemma split_keyexpr_of_join_witness :
  split_keyexpr SLASH (join SLASH ["@ros2_lv"; ""; "NN"; ""]) = ["@ros2_lv"; ""; "NN"; ""].
Proof.
  apply (split_keyexpr_of_join SLASH ["@ros2_lv"; ""; "NN"; ""]).
  - discriminate.
  - repeat constructor.
Defined.

(** ** Name mangler *)

Lemma demangle_no_escape (x : string) :
  occurs SLASH_REPLACEMENT (demangle_name x) = false.
Proof.
  induction x as [|c x IH]; simpl; [reflexivity|].
  destruct (Ascii.eqb_spec c SLASH_REPLACEMENT) as [->|Hs]; simpl; [exact IH|].
  rewrite IH. now destruct (Ascii.eqb_spec c SLASH_REPLACEMENT).
Qed.

Lemma demangle_empty (x : string) : empty (demangle_name x) = empty x.
Proof.
  destruct x as [|c x]; simpl; [reflexivity|].
  now destruct (Ascii.eqb c SLASH_REPLACEMENT).
Qed.

Lemma mangle_of_demangle (x : string) :
  occurs SLASH x = false -> mangle_name (demangle_name x) = x.
Proof.
  induction x as [|c x IH]; simpl; [reflexivity|].
  intros H. apply orb_false_elim in H. destruct H as [Hc Hx].
  destruct (Ascii.eqb_spec c SLASH_REPLACEMENT) as [->|Hs]; simpl.
  - now rewrite IH.
  - rewrite Hc. now rewrite IH.
Qed.

Lemma mangle_length (x : string) : String.length (mangle_name x) = String.length x.
Proof.
  induction x as [|c x IH]; simpl; [reflexivity|].
  destruct (Ascii.eqb c SLASH); simpl; congruence.
Qed.

Lemma demangle_length (x : string) : String.length (demangle_name x) = String.length x.
Proof.
  induction x as [|c x IH]; simpl; [reflexivity|].
  destruct (Ascii.eqb c SLASH_REPLACEMENT); simpl; congruence.
Qed.

(** X3. What the mangler gives: a mangled name has no ["/"] and a demangled
    name has no ['%'], whatever the input; both keep the length of the
    input, so a name is empty exactly when its mangled form is. *)
Theorem mangle_name_output :
  forall x : string,
    occurs SLASH (mangle_name x) = false /\
    occurs SLASH_REPLACEMENT (demangle_name x) = false /\
    String.length (mangle_name x) = String.length x /\
    String.length (demangle_name x) = String.length x.
Proof.
  intros x. repeat split.
  - apply mangle_no_slash.
  - apply demangle_no_escape.
  - apply mangle_length.
  - apply demangle_length.
Qed.

(** X4. The other inverse: on a text without ["/"], such as a segment of a
    key expression, [mangle_name] undoes [demangle_name]. *)
Theorem mangle_demangle_segment :
  forall x : string,
    occurs SLASH x = false -> mangle_name (demangle_name x) = x.
Proof. exact mangle_of_demangle. Qed.

Lemma mangle_demangle_segment_witness :
  mangle_name (demangle_name "%ns%talker") = "%ns%talker".
Proof. exact (mangle_demangle_segment "%ns%talker" eq_refl). Defined.

Lemma mangle_app (a b : string) :
  mangle_name (a ++ b) = mangle_name a ++ mangle_name b.
Proof.
  induction a as [|c a IH]; simpl; [reflexivity|].
  destruct (Ascii.eqb c SLASH); simpl; now rewrite IH.
Qed.

(** X5. Names with the escape character collide: a name with a ['%'] and
    the name with a ["/"] in its place are different names with the same
    mangled form, so [mangle_name] is not injective on all names. *)
Theorem mangle_name_collision :
  forall a b : string,
    a ++ String SLASH_REPLACEMENT b <> a ++ String SLASH b /\
    mangle_name (a ++ String SLASH_REPLACEMENT b) = mangle_name (a ++ String SLASH b).
Proof.
  intros a b. split.
  - induction a as [|c a IH]; simpl; [discriminate|].
    intros H. injection H as H. now apply IH.
  - now rewrite !mangle_app.
Qed.

(** ** Session id *)

Lemma hex_byte (b : Byte.byte) :
  string_forall is_hex_digit (hex (Byte.to_N b)) = true /\
  (1 <= String.length (hex (Byte.to_N b)) <= 2)%nat.
Proof. destruct b; (split; [reflexivity | vm_compute; lia]). Qed.

Lemma is_hex_digit_slash : is_hex_digit SLASH = false.
Proof. reflexivity. Qed.

Lemma string_forall_app (p : ascii -> bool) (a b : string) :
  string_forall p (a ++ b) = string_forall p a && string_forall p b.
Proof.
  induction a as [|c a IH]; simpl; [reflexivity|].
  now rewrite IH, andb_assoc.
Qed.

Lemma zid_to_str_hex (id : z_id_t) : string_forall is_hex_digit (zid_to_str id) = true.
Proof.
  induction id as [|b id IH]; cbn [zid_to_str]; [reflexivity|].
  now rewrite string_forall_app, (proj1 (hex_byte b)), IH.
Qed.

Lemma zid_to_str_length (id : z_id_t) :
  (length id <= String.length (zid_to_str id) <= 2 * length id)%nat.
Proof.
  induction id as [|b id IH]; simpl; [lia|].
  rewrite length_app. pose proof (proj2 (hex_byte b)). lia.
Qed.

(** X6. The text of a session id: [zid_to_str] gives lower-case hexadecimal
    digits only, hence no ["/"], and between one and two of them for each
    byte of the id; for the 16 bytes of a zenoh id, between 16 and 32
    characters. *)
Theorem zid_to_str_text :
  forall id : z_id_t,
    string_forall is_hex_digit (zid_to_str id) = true /\
    occurs SLASH (zid_to_str id) = false /\
    (length id <= String.length (zid_to_str id) <= 2 * length id)%nat.
Proof.
  intros id. split; [apply zid_to_str_hex|].
  split; [|apply zid_to_str_length].
  apply (string_forall_occurs is_hex_digit); [apply zid_to_str_hex | reflexivity].
Qed.

(** X7. The text of a session id does not identify it: a byte below 16 is
    written with one digit, so the ids that start with the bytes 0x01 0x10
    and with the bytes 0x11 0x00, and go on alike, are different ids with
    the same text. *)
Theorem zid_to_str_collision :
  forall rest : z_id_t,
    Byte.x01 :: Byte.x10 :: rest <> Byte.x11 :: Byte.x00 :: rest /\
    zid_to_str (Byte.x01 :: Byte.x10 :: rest) = zid_to_str (Byte.x11 :: Byte.x00 :: rest).
Proof. intros rest. split; [discriminate | reflexivity]. Qed.

(** ** QoS codec *)

Lemma find_some_In {V : Type} (key : string) (m : list (string * V)) (v : V) :
  find String.eqb key m = Some v -> In v (map snd m).
Proof.
  induction m as [|[k w] m IH]; simpl; [discriminate|].
  destruct (String.eqb k key); [intros E; injection E as ->; now left|].
  intros H. right. now apply IH.
Qed.

Lemma strtoul_bounded (nptr : string) :
  strtoul_errno (strtoul nptr) = false -> strtoul_num (strtoul nptr) <= ULONG_MAX.
Proof.
  unfold strtoul.
  destruct (skip_spaces nptr) as [nspace s1].
  destruct (read_sign s1) as [[negative nsign] s2].
  destruct (read_digits s2 0) as [v [|n]]; cbn [strtoul_errno strtoul_num].
  - intros _. unfold ULONG_MAX. lia.
  - destruct (N.ltb_spec ULONG_MAX v) as [|Hv]; cbn [strtoul_errno strtoul_num];
      [discriminate|].
    intros _. destruct negative; [|exact Hv].
    assert (H : (ULONG_MAX + 1 - v) mod (ULONG_MAX + 1) < ULONG_MAX + 1)
      by (apply N.mod_lt; unfold ULONG_MAX; lia).
    lia.
Qed.

(** What a successful [keyexpr_to_qos] has read. *)
Lemma keyexpr_to_qos_success (keyexpr : string) (q : rmw_qos_profile_t) :
  keyexpr_to_qos keyexpr = Some q ->
  let parts := split_keyexpr QOS_DELIMITER keyexpr in
  let history_parts := split_keyexpr QOS_HISTORY_DELIMITER (part parts 2) in
  let r := strtoul (c_str (part history_parts 1)) in
  find String.eqb (part history_parts 0) str_to_qos_history = Some (history q) /\
  find String.eqb (part parts 0) str_to_qos_reliability = Some (reliability q) /\
  find String.eqb (part parts 1) str_to_qos_durability = Some (durability q) /\
  strtoul_errno r = false /\
  depth q = strtoul_num r /\
  decoded_qos q = q.
Proof.
  unfold keyexpr_to_qos. cbv zeta.
  set (parts := split_keyexpr QOS_DELIMITER keyexpr).
  set (history_parts := split_keyexpr QOS_HISTORY_DELIMITER (part parts 2)).
  destruct (length parts <? 3)%nat; [discriminate|].
  destruct (length history_parts <? 2)%nat; [discriminate|].
  unfold at_.
  destruct (find String.eqb (part history_parts 0) str_to_qos_history) as [h|];
    [|discriminate].
  destruct (find String.eqb (part parts 0) str_to_qos_reliability) as [r|];
    [|discriminate].
  destruct (find String.eqb (part parts 1) str_to_qos_durability) as [d|];
    [|discriminate].
  cbn [bind try_catch].
  destruct (strtoul_endptr (strtoul (c_str (part history_parts 1)))); [discriminate|].
  destruct (negb _); [discriminate|].
  destruct (strtoul_errno _) eqn:E; [discriminate|].
  intros H. injection H as <-. repeat split.
Qed.

Lemma keyexpr_to_qos_in_tables (keyexpr : string) (q : rmw_qos_profile_t) :
  keyexpr_to_qos keyexpr = Some q -> qos_in_tables q /\ decoded_qos q = q.
Proof.
  intros H. apply keyexpr_to_qos_success in H. cbv zeta in H.
  destruct H as (Hh & Hr & Hd & He & Hn & Hq).
  split; [|exact Hq]. unfold qos_in_tables.
  repeat split; try (eapply find_some_In; eassumption).
  rewrite Hn. now apply strtoul_bounded.
Qed.

(** X8. What [keyexpr_to_qos] accepts is canonical once encoded: every
    profile it returns has its reliability, durability and history among
    the values of the tables and a depth within [ULONG_MAX], and encoding
    that profile and decoding it again returns the same profile. *)
Theorem keyexpr_to_qos_canonical :
  forall (keyexpr : string) (q : rmw_qos_profile_t),
    keyexpr_to_qos keyexpr = Some q ->
    qos_in_tables q /\
    keyexpr_to_qos (qos_to_keyexpr q) = Some q.
Proof.
  intros keyexpr q H. apply keyexpr_to_qos_in_tables in H. destruct H as [Ht Hq].
  split; [exact Ht|]. rewrite (keyexpr_to_qos_encoded q Ht). now rewrite Hq.
Qed.

Lemma keyexpr_to_qos_canonical_witness :
  keyexpr_to_qos
    (qos_to_keyexpr
       (mk_qos 1 7 2 3 RMW_QOS_DEADLINE_DEFAULT RMW_QOS_LIFESPAN_DEFAULT
          RMW_QOS_POLICY_LIVELINESS_AUTOMATIC RMW_QOS_LIVELINESS_LEASE_DURATION_DEFAULT))
  = Some (mk_qos 1 7 2 3 RMW_QOS_DEADLINE_DEFAULT RMW_QOS_LIFESPAN_DEFAULT
            RMW_QOS_POLICY_LIVELINESS_AUTOMATIC RMW_QOS_LIVELINESS_LEASE_DURATION_DEFAULT).
Proof.
  exact (proj2 (keyexpr_to_qos_canonical "2:3:1, +007:rest" _ eq_refl)).
Defined.

Lemma split_app_parts (d : ascii) (a b : string) :
  split_keyexpr d (a ++ String d b) = (split_keyexpr d a ++ split_keyexpr d b)%list.
Proof.
  induction a as [|c a IH]; simpl.
  - now rewrite Ascii.eqb_refl.
  - destruct (Ascii.eqb c d); [now rewrite IH|].
    rewrite IH. pose proof (split_nonnil d a) as Hn.
    now destruct (split_keyexpr d a).
Qed.

Lemma part_app (l1 l2 : list string) (i : nat) :
  (i < length l1)%nat -> part (l1 ++ l2) i = part l1 i.
Proof. intros H. unfold part. now apply app_nth1. Qed.

(** X9. [keyexpr_to_qos] reads the first three parts between colons only:
    after a text with at least three such parts, a colon and anything
    after it change nothing to the result. *)
Theorem keyexpr_to_qos_ignores_excess :
  forall keyexpr excess : string,
    (3 <= length (split_keyexpr QOS_DELIMITER keyexpr))%nat ->
    keyexpr_to_qos (keyexpr ++ String QOS_DELIMITER excess) = keyexpr_to_qos keyexpr.
Proof.
  intros keyexpr excess H. unfold keyexpr_to_qos.
  rewrite split_app_parts.
  set (parts := split_keyexpr QOS_DELIMITER keyexpr) in *.
  rewrite !part_app by lia. rewrite List.length_app.
  destruct (Nat.ltb_spec (length parts + length (split_keyexpr QOS_DELIMITER excess)) 3);
    [lia|].
  destruct (Nat.ltb_spec (length parts) 3); [lia | reflexivity].
Qed.

Lemma keyexpr_to_qos_ignores_excess_witness :
  keyexpr_to_qos "1:2:1,10:and:more" = keyexpr_to_qos "1:2:1,10".
Proof.
  apply (keyexpr_to_qos_ignores_excess "1:2:1,10" "and:more").
  vm_compute. lia.
Defined.

Lemma numeral_free (c : ascii) (ws sg : string) (d : uint) :
  string_forall isspace ws = true -> sign_text sg ->
  isspace c = false -> isdigit c = false -> c <> "+"%char -> c <> "-"%char ->
  occurs c (ws ++ sg ++ NilEmpty.string_of_uint d) = false.
Proof.
  intros Hws Hsg Hs Hd Hp Hm. rewrite !occurs_app.
  rewrite (string_forall_occurs isspace c ws Hws Hs).
  rewrite (string_forall_occurs isdigit c _ (uint_digits d) Hd).
  cbn [orb]. rewrite orb_false_r.
  destruct Hsg; cbn [occurs]; rewrite ?orb_false_r; try reflexivity;
    apply Ascii.eqb_neq; congruence.
Qed.

Lemma strtoul_numeral_text (ws sg : string) (d : uint) :
  string_forall isspace ws = true -> sign_text sg -> d <> Nil ->
  N.of_uint d <= ULONG_MAX ->
  let text := ws ++ sg ++ NilEmpty.string_of_uint d in
  c_str text = text /\
  strtoul text =
  mk_strtoul (if String.eqb sg "-"
              then (ULONG_MAX + 1 - N.of_uint d) mod (ULONG_MAX + 1)
              else N.of_uint d) (String.length text) false /\
  (exists n, String.length text = S n).
Proof.
  intros Hws Hsg Hd Hv text.
  pose proof (c_str_numeral ws sg "" d Hws Hsg) as C.
  pose proof (strtoul_numeral ws sg "" d Hws Hsg Hd I) as S.
  cbn [c_str] in C. rewrite !append_nil_r in C, S. cbv zeta in S.
  destruct (N.ltb_spec ULONG_MAX (N.of_uint d)); [lia|].
  repeat split.
  - exact C.
  - unfold text. rewrite S, !length_app. f_equal. lia.
  - destruct (uint_head d Hd) as (c & rest & E & _).
    unfold text. rewrite !length_app, E. cbn [String.length].
    exists (String.length ws + (String.length sg + String.length rest))%nat. lia.
Qed.

(** X10. The depth that [keyexpr_to_qos] accepts: after three policies of
    the tables, a depth written as white space, an optional sign and at
    least one digit, for a number within [ULONG_MAX], is accepted; leading
    zeros and a plus sign do not count, and a minus sign is not refused:
    the depth is then the number negated modulo 2^64. *)
Theorem keyexpr_to_qos_depth_numeral :
  forall (r du h : N) (ws sg : string) (d : uint),
    In r (map snd str_to_qos_reliability) ->
    In du (map snd str_to_qos_durability) ->
    In h (map snd str_to_qos_history) ->
    string_forall isspace ws = true -> sign_text sg -> d <> Nil ->
    N.of_uint d <= ULONG_MAX ->
    keyexpr_to_qos
      (to_string r ++ String QOS_DELIMITER
         (to_string du ++ String QOS_DELIMITER
            (to_string h ++ String QOS_HISTORY_DELIMITER
               (ws ++ sg ++ NilEmpty.string_of_uint d))))
    = Some {| history := h;
              depth := if String.eqb sg "-"
                       then (ULONG_MAX + 1 - N.of_uint d) mod (ULONG_MAX + 1)
                       else N.of_uint d;
              reliability := r;
              durability := du;
              deadline := RMW_QOS_DEADLINE_DEFAULT;
              lifespan := RMW_QOS_LIFESPAN_DEFAULT;
              liveliness := RMW_QOS_POLICY_LIVELINESS_AUTOMATIC;
              liveliness_lease_duration := RMW_QOS_LIVELINESS_LEASE_DURATION_DEFAULT |}.
Proof.
  intros r du h ws sg d Hr Hdu Hh Hws Hsg Hd Hv.
  set (text := ws ++ sg ++ NilEmpty.string_of_uint d).
  assert (Fc : occurs QOS_DELIMITER text = false)
    by (apply numeral_free; (assumption || reflexivity || discriminate)).
  assert (Fh : occurs QOS_HISTORY_DELIMITER text = false)
    by (apply numeral_free; (assumption || reflexivity || discriminate)).
  unfold keyexpr_to_qos.
  rewrite !split_app by (now apply to_string_free).
  rewrite split_free
    by (rewrite occurs_app; cbn [occurs]; rewrite Fc; now rewrite to_string_free).
  cbn [length Nat.ltb Nat.leb part nth].
  rewrite split_app by (now apply to_string_free).
  rewrite split_free by assumption.
  cbn [length Nat.ltb Nat.leb part nth].
  assert (Ah : at_ String.eqb (to_string h) str_to_qos_history = Return h).
  { simpl in Hh. destruct Hh as [<-|[<-|[<-|[<-|[]]]]]; reflexivity. }
  assert (Ar : at_ String.eqb (to_string r) str_to_qos_reliability = Return r).
  { simpl in Hr. destruct Hr as [<-|[<-|[<-|[<-|[]]]]]; reflexivity. }
  assert (Ad : at_ String.eqb (to_string du) str_to_qos_durability = Return du).
  { simpl in Hdu. destruct Hdu as [<-|[<-|[<-|[<-|[]]]]]; reflexivity. }
  rewrite Ah, Ar, Ad. cbn [bind try_catch].
  destruct (strtoul_numeral_text ws sg d Hws Hsg Hd Hv) as (C & S & n & En).
  fold text in C, S, En. rewrite C, S.
  cbn [strtoul_endptr strtoul_errno strtoul_num].
  rewrite deref_end, En, Ascii.eqb_refl. reflexivity.
Qed.

Lemma keyexpr_to_qos_depth_numeral_witness :
  keyexpr_to_qos "1:2:1, -01"
  = Some (mk_qos 1 18446744073709551615 1 2 RMW_QOS_DEADLINE_DEFAULT RMW_QOS_LIFESPAN_DEFAULT
            RMW_QOS_POLICY_LIVELINESS_AUTOMATIC RMW_QOS_LIVELINESS_LEASE_DURATION_DEFAULT).
Proof.
  apply (keyexpr_to_qos_depth_numeral 1 2 1 " " "-" (D0 (D1 Nil)));
    try (simpl; tauto); try reflexivity; try constructor; try discriminate.
Defined.

(** ** Entity codec *)

Lemma round_trip_facts_id (id : string) (type : EntityType) (node_info : NodeInfo.t)
  (topic_info : option TopicInfo.t) :
  round_trip_facts id type node_info topic_info <->
  segment id /\ round_trip_node_topic type node_info topic_info.
Proof. unfold round_trip_facts, round_trip_node_topic. tauto. Qed.

(** [Entity::make] on the key expression of round-trip facts. *)
Lemma make_keyexpr_format (id tag : string) (type : EntityType) (node_info : NodeInfo.t)
  (topic_info : option TopicInfo.t) :
  round_trip_facts id type node_info topic_info ->
  entity_tag type = Some tag ->
  Entity.make (keyexpr_format id tag node_info topic_info) =
  Return (Some (Entity.mk id type
                  (NodeInfo.mk (NodeInfo.domain_id_ node_info) (NodeInfo.ns_ node_info)
                     (NodeInfo.name_ node_info) EmptyString)
                  (option_map decoded_topic topic_info)
                  (keyexpr_format id tag node_info topic_info))).
Proof.
  intros Hf Ht.
  pose proof Hf as (Hty & (_ & Hid) & _ & Hns & _ & _ & Htopic).
  destruct (entity_tag_facts type Hty) as (tag' & Ht' & Hseg & Hfind).
  assert (tag' = tag) by congruence. subst tag'.
  destruct (namespace_segment_part _ Hns) as (_ & (_ & Hnsfree) & _).
  unfold Entity.make.
  rewrite keyexpr_format_join at 1 by assumption.
  rewrite split_join.
  - rewrite (parse_keyexpr_parts id tag type node_info topic_info Hf Hseg Hfind).
    unfold Entity.new. rewrite (token_format _ _ _ _ _ Ht). cbn [bind].
    unfold keyexpr_format. cbn [NodeInfo.domain_id_ NodeInfo.ns_ NodeInfo.name_].
    now rewrite topic_suffix_decoded.
  - discriminate.
  - apply keyexpr_parts_free; try assumption; [apply Hseg|].
    destruct topic_info as [topic|]; [|exact I].
    now destruct Htopic as (_ & _ & _ & (_ & Htt) & _).
Qed.

Lemma new_keyexpr_format (id : string) (type : EntityType) (node_info : NodeInfo.t)
  (topic_info : option TopicInfo.t) (e : Entity.t) :
  Entity.new id type node_info topic_info = Return e ->
  exists tag : string,
    entity_tag type = Some tag /\
    e = Entity.mk id type node_info topic_info
          (keyexpr_format id tag node_info topic_info).
Proof.
  unfold Entity.new. destruct (entity_tag type) as [tag|] eqn:Ht.
  - rewrite (token_format _ _ _ _ _ Ht). cbn [bind]. intros E. injection E as <-. eauto.
  - unfold Entity.token. rewrite entity_tag_at, Ht. discriminate.
Qed.

Lemma zid_to_str_segment (id : z_id_t) : id <> [] -> segment (zid_to_str id).
Proof.
  intros H. split.
  - pose proof (zid_to_str_length id) as L.
    destruct id as [|b id]; [congruence|]. simpl length in L.
    intros E. rewrite E in L. simpl in L. lia.
  - apply (string_forall_occurs is_hex_digit); [apply zid_to_str_hex | reflexivity].
Qed.

(** The factory from facts on the facts it does not refuse. *)
Lemma make_from_facts_accepts (id : z_id_t) (type : EntityType) (node_info : NodeInfo.t)
  (topic_info : option TopicInfo.t) :
  refused_facts type node_info topic_info /\
  Entity.make_from_facts id type node_info topic_info = Return None
  \/
  ~ refused_facts type node_info topic_info /\
  exists e : Entity.t,
    Entity.make_from_facts id type node_info topic_info = Return (Some e) /\
    Entity.new (zid_to_str id) type node_info topic_info = Return e.
Proof.
  unfold refused_facts, Entity.make_from_facts.
  destruct (entity_tag type) as [tag|] eqn:Ht.
  - assert (F : has_value (find EntityType_eqb type entity_to_str) = true)
      by (destruct type; try reflexivity; discriminate Ht).
    assert (Hty : type <> Invalid) by (intros ->; discriminate Ht).
    rewrite F. cbn [negb].
    destruct (empty (NodeInfo.ns_ node_info)) eqn:Ens; cbn [orb].
    { apply empty_true in Ens. left. tauto. }
    destruct (empty (NodeInfo.name_ node_info)) eqn:Ename.
    { apply empty_true in Ename. left. tauto. }
    apply empty_false in Ens, Ename.
    destruct (EntityType_eqb type Node) eqn:Tn; cbn [negb andb].
    + assert (type = Node) by (destruct type; (reflexivity || discriminate Tn)).
      unfold Entity.new. rewrite (token_format _ _ _ _ _ Ht). cbn [bind].
      right. split; [tauto | eauto].
    + assert (type <> Node) by (intros ->; discriminate Tn).
      destruct topic_info as [topic|]; cbn [has_value negb].
      * unfold Entity.new. rewrite (token_format _ _ _ _ _ Ht). cbn [bind].
        right. split; [intros [?|[?|[?|[_ ?]]]]; congruence | eauto].
      * left. tauto.
  - assert (type = Invalid) by (destruct type; (reflexivity || discriminate Ht)).
    subst type. left. tauto.
Qed.

(** X11. The factory from facts: it returns [std::nullopt] for an entity
    type without a tag, for an empty namespace, for an empty node name and
    for a type other than a node without topic; for all other facts it
    returns the [Entity] that the constructor builds with the text of the
    session id as its id; it never throws. *)
Theorem make_from_facts_result :
  forall (id : z_id_t) (type : EntityType) (node_info : NodeInfo.t)
         (topic_info : option TopicInfo.t),
    (refused_facts type node_info topic_info ->
     Entity.make_from_facts id type node_info topic_info = Return None) /\
    (~ refused_facts type node_info topic_info ->
     exists e : Entity.t,
       Entity.make_from_facts id type node_info topic_info = Return (Some e) /\
       Entity.new (zid_to_str id) type node_info topic_info = Return e /\
       Entity.id e = zid_to_str id /\
       Entity.type e = type /\
       Entity.node_info_ e = node_info /\
       Entity.topic_info e = topic_info).
Proof.
  intros id type node_info topic_info.
  destruct (make_from_facts_accepts id type node_info topic_info)
    as [(Hr & Hm)|(Hr & e & Hm & Hn)]; (split; [intros ?|intros ?]);
    try contradiction; try assumption.
  exists e. split; [assumption|]. split; [assumption|].
  apply new_fields in Hn. tauto.
Qed.

Lemma make_from_facts_result_witness :
  Entity.make_from_facts [Byte.x0a; Byte.xff] Publisher (NodeInfo.mk 0 "/" "talker" "") None
  = Return None /\
  exists e : Entity.t,
    Entity.make_from_facts [Byte.x0a; Byte.xff] Node (NodeInfo.mk 0 "/" "talker" "") None
    = Return (Some e) /\
    Entity.id e = "aff".
Proof.
  split.
  - apply (proj1 (make_from_facts_result [Byte.x0a; Byte.xff] Publisher
                    (NodeInfo.mk 0 "/" "talker" "") None)).
    unfold refused_facts. do 3 right. split; [discriminate | reflexivity].
  - destruct (proj2 (make_from_facts_result [Byte.x0a; Byte.xff] Node
                       (NodeInfo.mk 0 "/" "talker" "") None)) as (e & H1 & _ & H2 & _).
    + unfold refused_facts. simpl. intros [H|[H|[H|[H _]]]]; congruence.
    + exists e. split; assumption.
Defined.

(** X12. From the factory to the parser and back: for a non-empty session
    id and facts on the type, the node and the topic that meet the
    conditions of the round trip, the factory from facts returns an
    [Entity], and [Entity::make] on its key expression returns an [Entity]
    with the text of the session id as id, the same type, domain id,
    namespace and node name, the empty enclave, the same topic up to the
    QoS fields fixed to their defaults, and the same key expression. *)
Theorem make_from_facts_round_trip :
  forall (id : z_id_t) (type : EntityType) (node_info : NodeInfo.t)
         (topic_info : option TopicInfo.t),
    id <> [] ->
    round_trip_node_topic type node_info topic_info ->
    exists e e' : Entity.t,
      Entity.make_from_facts id type node_info topic_info = Return (Some e) /\
      Entity.make (Entity.keyexpr e) = Return (Some e') /\
      Entity.id e' = zid_to_str id /\
      Entity.type e' = type /\
      Entity.node_info_ e' =
        NodeInfo.mk (NodeInfo.domain_id_ node_info) (NodeInfo.ns_ node_info)
          (NodeInfo.name_ node_info) EmptyString /\
      Entity.topic_info e' = option_map decoded_topic topic_info /\
      Entity.keyexpr e' = Entity.keyexpr e.
Proof.
  intros id type node_info topic_info Hid Hnt.
  assert (Hf : round_trip_facts (zid_to_str id) type node_info topic_info)
    by (apply round_trip_facts_id; split; [now apply zid_to_str_segment | assumption]).
  destruct Hnt as (Hty & _ & Hns & Hname & _ & Htopic).
  destruct (make_from_facts_accepts id type node_info topic_info)
    as [(Hr & _)|(_ & e & Hm & Hn)].
  { exfalso. destruct Hr as [H|[H|[H|[H1 H2]]]]; try congruence.
    - destruct Hns as [E|(seg & E & _)]; rewrite E in H; discriminate H.
    - subst topic_info. congruence. }
  destruct (new_keyexpr_format _ _ _ _ _ Hn) as (tag & Ht & ->).
  eexists. eexists. split; [exact Hm|].
  unfold Entity.keyexpr at 1. cbn [Entity.keyexpr_].
  rewrite (make_keyexpr_format _ _ _ _ _ Hf Ht). repeat split.
Qed.

Lemma make_from_facts_round_trip_witness :
  exists e e' : Entity.t,
    Entity.make_from_facts [Byte.x0a; Byte.xff] Node (NodeInfo.mk 3 "/ns" "talker" "enclave")
      None = Return (Some e) /\
    Entity.make (Entity.keyexpr e) = Return (Some e') /\
    Entity.id e' = "aff" /\
    Entity.node_info_ e' = NodeInfo.mk 3 "/ns" "talker" "".
Proof.
  destruct (make_from_facts_round_trip [Byte.x0a; Byte.xff] Node
              (NodeInfo.mk 3 "/ns" "talker" "enclave") None)
    as (e & e' & H1 & H2 & H3 & _ & H4 & _).
  - discriminate.
  - unfold round_trip_node_topic, single_segment_namespace, segment. simpl.
    unfold ULONG_MAX. repeat split; try discriminate; try lia.
    right. exists "ns". repeat split; discriminate.
  - exists e, e'. repeat split; assumption.
Defined.

(** X13. The key expression tells the facts apart: two entities built from
    facts that meet the conditions of the round trip and that have the
    same key expression have the same id, type, domain id, namespace and
    node name, and the same topic up to the QoS fields that are not
    encoded. *)
Theorem keyexpr_injective :
  forall (id1 id2 : string) (type1 type2 : EntityType) (node1 node2 : NodeInfo.t)
         (topic1 topic2 : option TopicInfo.t) (e1 e2 : Entity.t),
    round_trip_facts id1 type1 node1 topic1 ->
    round_trip_facts id2 type2 node2 topic2 ->
    Entity.new id1 type1 node1 topic1 = Return e1 ->
    Entity.new id2 type2 node2 topic2 = Return e2 ->
    Entity.keyexpr e1 = Entity.keyexpr e2 ->
    id1 = id2 /\ type1 = type2 /\
    NodeInfo.domain_id_ node1 = NodeInfo.domain_id_ node2 /\
    NodeInfo.ns_ node1 = NodeInfo.ns_ node2 /\
    NodeInfo.name_ node1 = NodeInfo.name_ node2 /\
    option_map decoded_topic topic1 = option_map decoded_topic topic2.
Proof.
  intros id1 id2 type1 type2 node1 node2 topic1 topic2 e1 e2 Hf1 Hf2 Hn1 Hn2 Hk.
  destruct (new_keyexpr_format _ _ _ _ _ Hn1) as (tag1 & Ht1 & ->).
  destruct (new_keyexpr_format _ _ _ _ _ Hn2) as (tag2 & Ht2 & ->).
  unfold Entity.keyexpr in Hk. cbn [Entity.keyexpr_] in Hk.
  pose proof (make_keyexpr_format _ _ _ _ _ Hf1 Ht1) as M1.
  pose proof (make_keyexpr_format _ _ _ _ _ Hf2 Ht2) as M2.
  rewrite Hk, M2 in M1. repeat split; congruence.
Qed.

Lemma keyexpr_injective_witness :
  "x" = "x" /\ Node = Node /\ 0 = 0 /\ "/" = "/" /\ "n" = "n" /\
  @None TopicInfo.t = None.
Proof.
  apply (keyexpr_injective "x" "x" Node Node (NodeInfo.mk 0 "/" "n" "here")
           (NodeInfo.mk 0 "/" "n" "there") None None
           (Entity.mk "x" Node (NodeInfo.mk 0 "/" "n" "here") None "@ros2_lv/0/x/NN/_/n")
           (Entity.mk "x" Node (NodeInfo.mk 0 "/" "n" "there") None "@ros2_lv/0/x/NN/_/n"));
    try reflexivity;
    (unfold round_trip_facts, segment, single_segment_namespace; simpl; unfold ULONG_MAX;
     repeat split; try discriminate; try lia; now left).
Defined.

Lemma find_entity_tag (tag : string) (type : EntityType) :
  find String.eqb tag str_to_entity = Some type ->
  type <> Invalid /\ entity_tag type = Some tag.
Proof.
  unfold str_to_entity. cbn [find].
  repeat match goal with
         | |- context [String.eqb ?a tag] =>
             destruct (String.eqb_spec a tag) as [<-|_];
             [intros E; injection E as <-; split; [discriminate | reflexivity]|]
         end.
  intros E. discriminate E.
Qed.

Lemma stoul_bounded (str : string) (n : N) : stoul str = Return n -> n <= ULONG_MAX.
Proof.
  unfold stoul. destruct (strtoul_endptr _); [discriminate|].
  destruct (strtoul_errno _) eqn:E; [discriminate|].
  intros H. injection H as <-. now apply strtoul_bounded.
Qed.

Lemma part_segment (parts : list string) (i : nat) :
  (i < length parts)%nat ->
  existsb empty parts = false ->
  Forall (fun p => occurs SLASH p = false) parts ->
  segment (part parts i).
Proof.
  intros Hi He Hf. assert (Hin : In (part parts i) parts) by (now apply nth_In).
  split.
  - intros E. rewrite E in Hin.
    assert (existsb empty parts = true) by (apply existsb_exists; now exists EmptyString).
    congruence.
  - rewrite Forall_forall in Hf. now apply Hf.
Qed.

Lemma demangle_nonempty (x : string) : x <> EmptyString -> demangle_name x <> EmptyString.
Proof.
  intros H E. apply empty_false in H. apply empty_true in E.
  rewrite demangle_empty in E. congruence.
Qed.

(** What [Entity::make] builds from a key expression: the arguments of the
    constructor, which meet the conditions of the round trip. *)
Lemma make_facts (keyexpr : string) (e : Entity.t) :
  Entity.make keyexpr = Return (Some e) ->
  exists (id : string) (type : EntityType) (node_info : NodeInfo.t)
         (topic_info : option TopicInfo.t),
    Entity.new id type node_info topic_info = Return e /\
    round_trip_facts id type node_info topic_info /\
    NodeInfo.enclave_ node_info = EmptyString /\
    option_map decoded_topic topic_info = topic_info.
Proof.
  unfold Entity.make. intros H. apply parse_success in H.
  set (parts := split_keyexpr SLASH keyexpr) in *.
  destruct H as (L6 & He & _ & type & domain_id & topic_info & F & D & T & Hn).
  pose proof (split_parts_free SLASH keyexpr) as Hfree. fold parts in Hfree.
  destruct (find_entity_tag _ _ F) as (Hty & _).
  assert (S4 : segment (part parts 4)) by (apply part_segment; (assumption || lia)).
  assert (S5 : segment (part parts 5)) by (apply part_segment; (assumption || lia)).
  do 4 eexists. split; [exact Hn|]. split; [|split; [reflexivity|]].
  - unfold round_trip_facts. cbn [NodeInfo.domain_id_ NodeInfo.ns_ NodeInfo.name_].
    split; [assumption|]. split; [apply part_segment; (assumption || lia)|].
    split; [now apply (stoul_bounded (part parts 1))|].
    split.
    { unfold single_segment_namespace.
      destruct (String.eqb_spec (part parts 4) "_") as [E|E]; [now left|].
      right. exists (part parts 4). repeat split; (apply S4 || assumption). }
    split; [apply demangle_nonempty, S5|].
    split; [apply demangle_no_escape|].
    destruct T as [(-> & ->)|(Tn & L9 & qos & Hq & ->)]; [reflexivity|].
    cbn [TopicInfo.name_ TopicInfo.type_ TopicInfo.qos_].
    split; [assumption|].
    split; [apply demangle_nonempty; apply part_segment; (assumption || lia)|].
    split; [apply demangle_no_escape|].
    split; [apply part_segment; (assumption || lia)|].
    now apply (keyexpr_to_qos_in_tables (part parts 8)).
  - destruct T as [(_ & ->)|(_ & _ & qos & Hq & ->)]; [reflexivity|].
    cbn [option_map]. unfold decoded_topic.
    cbn [TopicInfo.name_ TopicInfo.type_ TopicInfo.qos_].
    now rewrite (proj2 (keyexpr_to_qos_in_tables _ _ Hq)).
Qed.

(** X14. What a parsed [Entity] is like: every [Entity] that [Entity::make]
    builds from a key expression has one of the five types, a non-empty id
    without ["/"], a domain id within [ULONG_MAX], a namespace that is
    ["/"] or ["/"] followed by one segment, a non-empty node name without
    ['%'], and a topic exactly when it is not a node, with a non-empty
    name without ['%'], a non-empty type without ["/"] and a QoS profile
    from the tables. *)
Theorem parsed_entity_facts :
  forall (keyexpr : string) (e : Entity.t),
    Entity.make keyexpr = Return (Some e) ->
    round_trip_facts (Entity.id e) (Entity.type e) (Entity.node_info_ e)
      (Entity.topic_info e).
Proof.
  intros keyexpr e H. apply make_facts in H.
  destruct H as (id & type & node_info & topic_info & Hn & Hf & _).
  apply new_fields in Hn. destruct Hn as (-> & -> & -> & -> & _). exact Hf.
Qed.

Lemma parsed_entity_facts_witness :
  round_trip_facts "abc" Node (NodeInfo.mk 7 "/ns" "my/node" "") None.
Proof.
  exact (parsed_entity_facts "@ros2_lv/007/abc/NN/ns/my%node/more" _ eq_refl).
Defined.

(** X15. Decoding is stable: the key expression of an [Entity] that
    [Entity::make] has built from a key expression is decoded by
    [Entity::make] to that same [Entity]. *)
Theorem make_keyexpr_stable :
  forall (keyexpr : string) (e : Entity.t),
    Entity.make keyexpr = Return (Some e) ->
    Entity.make (Entity.keyexpr e) = Return (Some e).
Proof.
  intros keyexpr e H. apply make_facts in H.
  destruct H as (id & type & [d ns name enclave] & topic_info & Hn & Hf & He & Ht).
  cbn [NodeInfo.enclave_] in He. subst enclave.
  destruct (new_keyexpr_format _ _ _ _ _ Hn) as (tag & Htag & ->).
  unfold Entity.keyexpr. cbn [Entity.keyexpr_].
  rewrite (make_keyexpr_format _ _ _ _ _ Hf Htag).
  cbn [NodeInfo.domain_id_ NodeInfo.ns_ NodeInfo.name_]. now rewrite Ht.
Qed.

Lemma make_keyexpr_stable_witness :
  Entity.make "@ros2_lv/7/abc/MP/ns/node/%t/T/1:2:1,10"
  = Return (Some (Entity.mk "abc" Publisher (NodeInfo.mk 7 "/ns" "node" "")
                    (Some (TopicInfo.mk "/t" "T"
                             (mk_qos 1 10 1 2 RMW_QOS_DEADLINE_DEFAULT
                                RMW_QOS_LIFESPAN_DEFAULT RMW_QOS_POLICY_LIVELINESS_AUTOMATIC
                                RMW_QOS_LIVELINESS_LEASE_DURATION_DEFAULT)))
                    "@ros2_lv/7/abc/MP/ns/node/%t/T/1:2:1,10")).
Proof.
  exact (make_keyexpr_stable "@ros2_lv/+007x/abc/MP/ns/node/%t/T/1:2:1, 10:z/more" _ eq_refl).
Defined.

Lemma find_present {V : Type} (key : string) (m : list (string * V)) :
  In key (map fst m) -> exists v, find String.eqb key m = Some v.
Proof.
  induction m as [|[k v] m IH]; simpl; [contradiction|].
  intros [->|H].
  - rewrite String.eqb_refl. eauto.
  - destruct (String.eqb k key); eauto.
Qed.

Lemma new_of_tag (tag id : string) (type : EntityType) (node_info : NodeInfo.t)
  (topic_info : option TopicInfo.t) :
  find String.eqb tag str_to_entity = Some type ->
  exists e, Entity.new id type node_info topic_info = Return e.
Proof.
  intros F. destruct (find_entity_tag _ _ F) as (_ & Ht).
  unfold Entity.new. rewrite (token_format _ _ _ _ _ Ht). cbn [bind]. eauto.
Qed.

(** X16. The only exception of [Entity::make]: it throws exactly when the
    key expression has at least 6 segments, none of them empty, the admin
    space as segment 0 and an entity tag as segment 3, and [std::stoul]
    throws on segment 1; the exception is then the one of [std::stoul]. In
    particular the constructor called at the end never throws. *)
Theorem make_throws_iff :
  forall (keyexpr : string) (x : exception),
    let parts := split_keyexpr SLASH keyexpr in
    Entity.make keyexpr = Throw x <->
    (6 <= length parts)%nat /\
    ~ In EmptyString parts /\
    part parts 0 = ADMIN_SPACE /\
    In (part parts 3) (map fst str_to_entity) /\
    stoul (part parts 1) = Throw x.
Proof.
  intros keyexpr x parts. split.
  - unfold Entity.make, Entity.parse. fold parts.
    destruct (Nat.ltb_spec (length parts) 6) as [|L6]; [discriminate|].
    destruct (existsb empty parts) eqn:X; [discriminate|].
    destruct (String.eqb_spec (part parts 0) ADMIN_SPACE) as [A|]; [|discriminate].
    cbn [negb].
    destruct (find String.eqb (part parts 3) str_to_entity) as [type|] eqn:F;
      [|discriminate].
    destruct (stoul (part parts 1)) as [domain_id|y] eqn:D; cbn [bind].
    + intros H. exfalso.
      destruct (negb (EntityType_eqb type Node)).
      * destruct (length parts <? 9)%nat; [discriminate|].
        destruct (keyexpr_to_qos (part parts 8)) as [qos|]; [|discriminate].
        destruct (new_of_tag _ (part parts 2) type
                    (NodeInfo.mk domain_id
                       (if String.eqb (part parts 4) "_" then "/" else "/" ++ part parts 4)
                       (demangle_name (part parts 5)) EmptyString)
                    (Some (TopicInfo.mk (demangle_name (part parts 6)) (part parts 7) qos))
                    F) as (e & E).
        rewrite E in H. discriminate H.
      * destruct (new_of_tag _ (part parts 2) type
                    (NodeInfo.mk domain_id
                       (if String.eqb (part parts 4) "_" then "/" else "/" ++ part parts 4)
                       (demangle_name (part parts 5)) EmptyString) None F) as (e & E).
        rewrite E in H. discriminate H.
    + intros H. injection H as ->. repeat split; try assumption.
      * intros Hin.
        assert (existsb empty parts = true)
          by (apply existsb_exists; now exists EmptyString).
        congruence.
      * clear -F. induction str_to_entity as [|[k v] m IH]; simpl in *; [discriminate|].
        destruct (String.eqb_spec k (part parts 3)); [now left | right; now apply IH].
  - intros (L6 & Hne & A & Hin & D).
    destruct (find_present _ _ Hin) as (type & F).
    now apply (make_stoul_throws keyexpr type x).
Qed.

Lemma make_throws_iff_witness :
  Entity.make "@ros2_lv/x/abc/NN/_/mynode" = Throw std_invalid_argument /\
  Entity.make "@ros2_lv//abc/NN/_/mynode" <> Throw std_invalid_argument.
Proof.
  split.
  - apply (proj2 (make_throws_iff "@ros2_lv/x/abc/NN/_/mynode" std_invalid_argument)).
    split; [vm_compute; lia|]. split; [|split; [reflexivity|split; [simpl; tauto|reflexivity]]].
    simpl. intros [H|[H|[H|[H|[H|[H|[]]]]]]]; discriminate H.
  - intros H.
    apply (proj1 (make_throws_iff "@ros2_lv//abc/NN/_/mynode" std_invalid_argument)) in H.
    destruct H as (_ & H & _). apply H. simpl. tauto.
Defined.

(** ** Subscription token *)

Lemma to_string_inj (n m : N) : to_string n = to_string m -> n = m.
Proof.
  intros E.
  pose proof (read_digits_uint (N.to_uint n) "" 0 I) as Rn.
  pose proof (read_digits_uint (N.to_uint m) "" 0 I) as Rm.
  rewrite append_nil_r, <- to_string_uint, uint_value_of_uint, DecimalN.Unsigned.of_to in Rn, Rm.
  rewrite E in Rn. congruence.
Qed.

Lemma subscription_token_split (domain_id : N) :
  split_keyexpr SLASH (subscription_token domain_id)
  = [ADMIN_SPACE; to_string domain_id; "**"].
Proof.
  unfold subscription_token. rewrite !append_assoc.
  change (ADMIN_SPACE ++ "/" ++ to_string domain_id ++ "/**")
    with (ADMIN_SPACE ++ String SLASH (to_string domain_id ++ String SLASH "**")).
  rewrite split_app by reflexivity.
  rewrite split_app by (now apply to_string_free).
  reflexivity.
Qed.

Lemma keyexpr_format_head (id tag : string) (node_info : NodeInfo.t)
  (topic_info : option TopicInfo.t) :
  firstn 2 (split_keyexpr SLASH (keyexpr_format id tag node_info topic_info))
  = [ADMIN_SPACE; to_string (NodeInfo.domain_id_ node_info)].
Proof.
  unfold keyexpr_format.
  change ("@ros2_lv" ++ "/" ++ to_string (NodeInfo.domain_id_ node_info) ++ "/" ++ ?x)
    with (ADMIN_SPACE ++ String SLASH (to_string (NodeInfo.domain_id_ node_info)
                                         ++ String SLASH x)).
  rewrite split_app by reflexivity.
  rewrite split_app by (now apply to_string_free).
  reflexivity.
Qed.

(** X17. The subscription token of a domain has three segments: the admin
    space, the decimal domain id and the wildcard ["**"]. Its first two
    segments are the first two segments of the key expression of an
    [Entity] exactly when the [Entity] is of that domain, so the token
    covers the entities of its domain and no entity of another domain. *)
Theorem subscription_token_domain :
  forall (id : string) (type : EntityType) (node_info : NodeInfo.t)
         (topic_info : option TopicInfo.t) (e : Entity.t) (domain_id : N),
    Entity.new id type node_info topic_info = Return e ->
    split_keyexpr SLASH (subscription_token domain_id)
    = [ADMIN_SPACE; to_string domain_id; "**"] /\
    (firstn 2 (split_keyexpr SLASH (Entity.keyexpr e))
     = firstn 2 (split_keyexpr SLASH (subscription_token domain_id))
     <-> NodeInfo.domain_id_ node_info = domain_id).
Proof.
  intros id type node_info topic_info e domain_id Hn.
  destruct (new_keyexpr_format _ _ _ _ _ Hn) as (tag & _ & ->).
  unfold Entity.keyexpr. cbn [Entity.keyexpr_].
  rewrite subscription_token_split, keyexpr_format_head. cbn [firstn].
  split; [reflexivity|]. split.
  - intros E. injection E as E. now apply to_string_inj.
  - now intros ->.
Qed.

Lemma subscription_token_domain_witness :
  split_keyexpr SLASH (subscription_token 42) = [ADMIN_SPACE; to_string 42; "**"].
Proof.
  exact (proj1 (subscription_token_domain "abc" Node (NodeInfo.mk 42 "/" "n" "") None _ 42
                  eq_refl)).
Defined.

(** ** A node with a topic *)

Lemma firstn_app_exact {A : Type} (l1 l2 : list A) :
  firstn (length l1) (l1 ++ l2) = l1.
Proof. induction l1 as [|a l1 IH]; simpl; [now destruct l2 | now rewrite IH]. Qed.

(** X18. A topic given to a node is lost: the constructor (and the factory
    from facts, which asks for a topic only when the type is not a node)
    writes the topic of a node into the key expression, and [Entity::make]
    reads a key expression with the node tag up to segment 5 only, so it
    returns the [Entity] it returns for the node without topic, with no
    topic. *)
Theorem node_topic_dropped :
  forall (id : string) (node_info : NodeInfo.t) (topic : TopicInfo.t),
    round_trip_facts id Node node_info None ->
    TopicInfo.name_ topic <> EmptyString ->
    segment (TopicInfo.type_ topic) ->
    exists e e0 e' : Entity.t,
      Entity.new id Node node_info (Some topic) = Return e /\
      Entity.new id Node node_info None = Return e0 /\
      Entity.make (Entity.keyexpr e) = Return (Some e') /\
      Entity.make (Entity.keyexpr e0) = Return (Some e') /\
      Entity.topic_info e' = None.
Proof.
  intros id node_info topic Hf Hname (Htype & Htfree).
  pose proof Hf as (_ & (Hid & Hidfree) & _ & Hns & Hnn & _ & _).
  destruct (namespace_segment_part _ Hns) as (_ & (Hnsne & Hnsfree) & _).
  assert (Ht : entity_tag Node = Some NODE_STR) by reflexivity.
  assert (Hseg : segment NODE_STR) by (split; [discriminate | reflexivity]).
  assert (Hfind : find String.eqb NODE_STR str_to_entity = Some Node) by reflexivity.
  pose proof (make_keyexpr_format _ _ _ _ _ Hf Ht) as M0. cbn [option_map] in M0.
  do 3 eexists.
  split; [unfold Entity.new; rewrite (token_format _ _ _ _ _ Ht); reflexivity|].
  split; [unfold Entity.new; rewrite (token_format _ _ _ _ _ Ht); reflexivity|].
  unfold Entity.keyexpr. cbn [Entity.keyexpr_].
  split; [|split; [exact M0 | reflexivity]].
  unfold Entity.make. rewrite keyexpr_format_join by assumption.
  rewrite split_join;
    [|discriminate | apply keyexpr_parts_free; first [assumption | reflexivity]].
  set (six := keyexpr_parts id NODE_STR node_info None).
  assert (E9 : keyexpr_parts id NODE_STR node_info (Some topic)
               = (six ++ topic_parts (Some topic))%list)
    by (unfold six, keyexpr_parts; cbn [topic_parts]; now rewrite app_nil_r).
  rewrite E9.
  rewrite <- (parse_firstn 6 (six ++ topic_parts (Some topic))).
  - change 6%nat with (length six). rewrite firstn_app_exact. unfold six.
    rewrite (parse_keyexpr_parts id NODE_STR Node node_info None Hf Hseg Hfind).
    unfold Entity.new. rewrite (token_format _ _ _ _ _ Ht). cbn [bind option_map].
    unfold keyexpr_format. reflexivity.
  - intros Hin. apply in_app_or in Hin. destruct Hin as [Hin|Hin].
    + unfold six, keyexpr_parts in Hin. cbn [topic_parts] in Hin. rewrite app_nil_r in Hin.
      simpl in Hin.
      destruct Hin as [H|[H|[H|[H|[H|[H|[]]]]]]]; try congruence; try discriminate H.
      * pose proof (to_string_nonempty (NodeInfo.domain_id_ node_info)) as E.
        rewrite H in E. discriminate E.
      * pose proof (mangle_empty (NodeInfo.name_ node_info)) as E.
        rewrite H, (segment_nonempty _ Hnn) in E. discriminate E.
    + simpl in Hin. destruct Hin as [H|[H|[H|[]]]]; try congruence.
      * pose proof (mangle_empty (TopicInfo.name_ topic)) as E.
        rewrite H, (segment_nonempty _ Hname) in E. discriminate E.
      * pose proof (qos_to_keyexpr_nonempty (TopicInfo.qos_ topic)) as E.
        rewrite H in E. discriminate E.
  - rewrite List.length_app. unfold six. simpl. lia.
  - lia.
  - intros Hn. exfalso. apply Hn. reflexivity.
Qed.

Lemma node_topic_dropped_witness :
  exists e e0 e' : Entity.t,
    Entity.new "abc" Node (NodeInfo.mk 0 "/" "n" "")
      (Some (TopicInfo.mk "/t" "T" (mk_qos 1 5 1 1 RMW_QOS_DEADLINE_DEFAULT
                                      RMW_QOS_LIFESPAN_DEFAULT
                                      RMW_QOS_POLICY_LIVELINESS_AUTOMATIC
                                      RMW_QOS_LIVELINESS_LEASE_DURATION_DEFAULT)))
    = Return e /\
    Entity.new "abc" Node (NodeInfo.mk 0 "/" "n" "") None = Return e0 /\
    Entity.make (Entity.keyexpr e) = Return (Some e') /\
    Entity.make (Entity.keyexpr e0) = Return (Some e') /\
    Entity.topic_info e' = None.
Proof.
  apply (node_topic_dropped "abc" (NodeInfo.mk 0 "/" "n" "")).
  - unfold round_trip_facts, segment, single_segment_namespace. simpl. unfold ULONG_MAX.
    repeat split; try discriminate; try lia. now left.
  - discriminate.
  - split; [discriminate | reflexivity].
Defined.

(** ** Acceptance *)

(** X19. What [Entity::make] accepts: it returns an [Entity] exactly for
    the key expressions with at least 6 segments, none of them empty, the
    admin space as segment 0, an entity tag as segment 3 and a segment 1
    that [std::stoul] converts, and, when the tag is not the one of a
    node, at least 9 segments and a segment 8 that [keyexpr_to_qos]
    decodes. *)
Theorem make_accepts_iff :
  forall keyexpr : string,
    let parts := split_keyexpr SLASH keyexpr in
    (exists e : Entity.t, Entity.make keyexpr = Return (Some e)) <->
    (6 <= length parts)%nat /\
    ~ In EmptyString parts /\
    part parts 0 = ADMIN_SPACE /\
    exists (type : EntityType) (domain_id : N),
      find String.eqb (part parts 3) str_to_entity = Some type /\
      stoul (part parts 1) = Return domain_id /\
      (type = Node \/
       (9 <= length parts)%nat /\
       exists qos, keyexpr_to_qos (part parts 8) = Some qos).
Proof.
  intros keyexpr parts. split.
  - intros (e & H). unfold Entity.make in H. fold parts in H.
    apply parse_success in H.
    destruct H as (L6 & He & A & type & domain_id & topic_info & F & D & T & _).
    repeat split; try assumption.
    + intros Hin.
      assert (existsb empty parts = true)
        by (apply existsb_exists; now exists EmptyString).
      congruence.
    + exists type, domain_id. repeat split; try assumption.
      destruct T as [(-> & _)|(_ & L9 & qos & Hq & _)]; [now left | right; eauto].
  - intros (L6 & Hne & A & type & domain_id & F & D & T).
    unfold Entity.make, Entity.parse. fold parts.
    destruct (Nat.ltb_spec (length parts) 6); [lia|].
    rewrite (existsb_empty_false parts Hne), A, String.eqb_refl, F, D. cbn [negb bind].
    destruct (EntityType_eqb type Node) eqn:Tn; cbn [negb].
    + destruct (new_of_tag _ (part parts 2) type
                  (NodeInfo.mk domain_id
                     (if String.eqb (part parts 4) "_" then "/" else "/" ++ part parts 4)
                     (demangle_name (part parts 5)) EmptyString) None F) as (e & E).
      rewrite E. cbn [bind]. eauto.
    + destruct T as [->|(L9 & qos & Hq)]; [discriminate Tn|].
      destruct (Nat.ltb_spec (length parts) 9); [lia|]. rewrite Hq.
      destruct (new_of_tag _ (part parts 2) type
                  (NodeInfo.mk domain_id
                     (if String.eqb (part parts 4) "_" then "/" else "/" ++ part parts 4)
                     (demangle_name (part parts 5)) EmptyString)
                  (Some (TopicInfo.mk (demangle_name (part parts 6)) (part parts 7) qos))
                  F) as (e & E).
      rewrite E. cbn [bind]. eauto.
Qed.

Lemma make_accepts_iff_witness :
  exists e : Entity.t, Entity.make "@ros2_lv/ 12junk/abc/NN/a%b/my%node" = Return (Some e).
Proof.
  apply (proj2 (make_accepts_iff "@ros2_lv/ 12junk/abc/NN/a%b/my%node")).
  split; [vm_compute; lia|]. split; [|split; [reflexivity|]].
  - simpl. intros [H|[H|[H|[H|[H|[H|[]]]]]]]; discriminate H.
  - exists Node, 12. repeat split. now left.
Defined.

(** X20. The segments of a key expression: for facts that meet the
    conditions of the round trip, the key expression of the [Entity] has
    exactly 6 segments without topic and 9 with a topic, none of them
    empty, so that it has no ["//"] and neither starts nor ends with
    ["/"]. *)
Theorem keyexpr_segments :
  forall (id : string) (type : EntityType) (node_info : NodeInfo.t)
         (topic_info : option TopicInfo.t) (e : Entity.t),
    round_trip_facts id type node_info topic_info ->
    Entity.new id type node_info topic_info = Return e ->
    length (split_keyexpr SLASH (Entity.keyexpr e))
    = match topic_info with
      | None => 6%nat
      | Some _ => 9%nat
      end /\
    ~ In EmptyString (split_keyexpr SLASH (Entity.keyexpr e)).
Proof.
  intros id type node_info topic_info e Hf Hn.
  destruct (new_keyexpr_format _ _ _ _ _ Hn) as (tag & Ht & ->).
  unfold Entity.keyexpr. cbn [Entity.keyexpr_].
  pose proof (make_keyexpr_format _ _ _ _ _ Hf Ht) as M.
  unfold Entity.make in M. apply parse_success in M. destruct M as (_ & He & _).
  split.
  - pose proof Hf as (Hty & (_ & Hid) & _ & Hns & _ & _ & Htopic).
    destruct (entity_tag_facts type Hty) as (tag' & Ht' & Hseg & _).
    assert (tag' = tag) by congruence. subst tag'.
    destruct (namespace_segment_part _ Hns) as (_ & (_ & Hnsfree) & _).
    rewrite keyexpr_format_join by assumption.
    rewrite split_join.
    + unfold keyexpr_parts. now destruct topic_info.
    + discriminate.
    + apply keyexpr_parts_free; try assumption; [apply Hseg|].
      destruct topic_info as [topic|]; [|exact I].
      now destruct Htopic as (_ & _ & _ & (_ & Htt) & _).
  - intros Hin.
    assert (existsb empty
              (split_keyexpr SLASH (keyexpr_format id tag node_info topic_info)) = true)
      by (apply existsb_exists; now exists EmptyString).
    congruence.
Qed.

Lemma keyexpr_segments_witness :
  length (split_keyexpr SLASH "@ros2_lv/3/abc/NN/ns/my%node") = 6%nat /\
  ~ In EmptyString (split_keyexpr SLASH "@ros2_lv/3/abc/NN/ns/my%node").
Proof.
  apply (keyexpr_segments "abc" Node (NodeInfo.mk 3 "/ns" "my/node" "") None
           (Entity.mk "abc" Node (NodeInfo.mk 3 "/ns" "my/node" "") None
              "@ros2_lv/3/abc/NN/ns/my%node")).
  - unfold round_trip_facts, segment, single_segment_namespace. simpl. unfold ULONG_MAX.
    repeat split; try discriminate; try lia.
    right. exists "ns". repeat split; discriminate.
  - reflexivity.
Defined.

(** ** QoS codec: what is refused *)

Lemma c_str_free (s : string) : occurs NUL (c_str s) = false.
Proof.
  induction s as [|c s IH]; simpl; [reflexivity|].
  destruct (Ascii.eqb c NUL) eqn:E; [reflexivity|]. simpl. now rewrite E.
Qed.

Lemma digit_uint (c : ascii) :
  isdigit c = true ->
  exists f : uint -> uint,
    (forall d, NilEmpty.string_of_uint (f d) = String c (NilEmpty.string_of_uint d)) /\
    (forall d acc, uint_value (f d) acc = uint_value d (10 * acc + digit_value c)) /\
    (forall d, f d <> Nil).
Proof.
  destruct c as [[] [] [] [] [] [] [] []]; intros H; try discriminate H;
    first [ exists D0; repeat split; discriminate
          | exists D1; repeat split; discriminate
          | exists D2; repeat split; discriminate
          | exists D3; repeat split; discriminate
          | exists D4; repeat split; discriminate
          | exists D5; repeat split; discriminate
          | exists D6; repeat split; discriminate
          | exists D7; repeat split; discriminate
          | exists D8; repeat split; discriminate
          | exists D9; repeat split; discriminate ].
Qed.

(** What [read_digits] has read: the digits of a numeral, up to a text
    that does not go on with a digit. *)
Lemma read_digits_spec (s : string) (acc : N) :
  exists (d : uint) (tail : string),
    s = NilEmpty.string_of_uint d ++ tail /\
    stops isdigit tail /\
    read_digits s acc = (uint_value d acc, String.length (NilEmpty.string_of_uint d)) /\
    (String.length (NilEmpty.string_of_uint d) = O -> d = Nil).
Proof.
  revert acc. induction s as [|c s IH]; intros acc.
  - exists Nil, EmptyString. repeat split.
  - destruct (isdigit c) eqn:Hc.
    + destruct (digit_uint c Hc) as (f & Hs & Hv & Hn).
      destruct (IH (10 * acc + digit_value c)) as (d & tail & E & Ht & R & _).
      exists (f d), tail. rewrite Hs, Hv. cbn [append String.length read_digits].
      rewrite Hc, R. repeat split; try assumption; [now rewrite <- E | discriminate].
    + exists Nil, (String c s). cbn [read_digits]. rewrite Hc. repeat split. exact Hc.
Qed.

Lemma skip_spaces_spec (s : string) :
  exists ws : string,
    s = ws ++ snd (skip_spaces s) /\
    string_forall isspace ws = true /\
    String.length ws = fst (skip_spaces s).
Proof.
  induction s as [|c s IH]; [exists EmptyString; repeat split|].
  cbn [skip_spaces]. destruct (isspace c) eqn:Hc.
  - destruct IH as (ws & E & Hws & L). destruct (skip_spaces s) as [n r].
    exists (String c ws). cbn [fst snd append String.length string_forall] in *.
    rewrite Hc, Hws, L. repeat split. now rewrite <- E.
  - exists EmptyString. repeat split.
Qed.

Lemma read_sign_spec (s : string) :
  exists sg : string,
    s = sg ++ snd (read_sign s) /\ sign_text sg /\
    String.length sg = snd (fst (read_sign s)).
Proof.
  destruct s as [|c s]; [exists EmptyString; repeat split; constructor|].
  destruct (Ascii.eqb_spec c "-"%char) as [->|Hm];
    [exists "-"; repeat split; constructor|].
  destruct (Ascii.eqb_spec c "+"%char) as [->|Hp];
    [exists "+"; repeat split; constructor|].
  exists EmptyString.
  assert (E : read_sign (String c s) = (false, 0%nat, String c s)).
  { destruct c as [[] [] [] [] [] [] [] []]; try reflexivity; congruence. }
  rewrite E. repeat split. constructor.
Qed.

Lemma deref_head_free (p : string) (i : nat) :
  occurs NUL p = false -> deref p i = NUL -> (String.length p <= i)%nat.
Proof.
  revert i. induction p as [|c p IH]; intros i Hf Hd; simpl; [lia|].
  simpl in Hf. apply orb_false_elim in Hf. destruct Hf as [Hc Hp].
  destruct i as [|i]; simpl in Hd.
  - subst c. discriminate Hc.
  - apply le_n_S. now apply IH.
Qed.

(** A text without NUL that [strtoul] converts up to its end, with no
    error, is a depth. *)
Lemma strtoul_accepts (nptr : string) (k : nat) :
  occurs NUL nptr = false ->
  strtoul_endptr (strtoul nptr) = S k ->
  deref nptr (S k) = NUL ->
  strtoul_errno (strtoul nptr) = false ->
  depth_numeral nptr.
Proof.
  intros Hfree He Hd Herr. unfold strtoul in He, Herr.
  destruct (skip_spaces_spec nptr) as (ws & E1 & Hws & L1).
  destruct (skip_spaces nptr) as [nspace s1]. cbn [fst snd] in *.
  destruct (read_sign_spec s1) as (sg & E2 & Hsg & L2).
  destruct (read_sign s1) as [[negative nsign] s2]. cbn [fst snd] in *.
  destruct (read_digits_spec s2 0) as (d & tail & E3 & Ht & R & Hnil).
  rewrite R in He, Herr.
  destruct (String.length (NilEmpty.string_of_uint d)) as [|nd] eqn:L3;
    cbn [strtoul_endptr strtoul_errno] in He, Herr; [discriminate He|].
  rewrite uint_value_of_uint in He, Herr.
  destruct (N.ltb_spec ULONG_MAX (N.of_uint d)) as [|Hv];
    cbn [strtoul_endptr strtoul_errno] in He, Herr; [discriminate Herr|].
  assert (Etext : nptr = (ws ++ sg ++ NilEmpty.string_of_uint d) ++ tail)
    by (rewrite !append_assoc; congruence).
  pose proof (deref_head_free nptr (S k) Hfree Hd) as Hlen.
  rewrite Etext in Hlen. rewrite !length_app in Hlen.
  assert (tail = EmptyString) by (destruct tail; [reflexivity | simpl in Hlen; lia]).
  subst tail. rewrite append_nil_r in Etext.
  exists ws, sg, d. repeat split; try assumption.
  intros ->. discriminate L3.
Qed.

(** [strtoul] on a depth. *)
Lemma depth_numeral_strtoul (text : string) :
  depth_numeral text ->
  c_str text = text /\
  exists n,
    strtoul_endptr (strtoul text) = S n /\
    String.length text = S n /\
    strtoul_errno (strtoul text) = false.
Proof.
  intros (ws & sg & d & -> & Hws & Hsg & Hd & Hv).
  destruct (strtoul_numeral_text ws sg d Hws Hsg Hd Hv) as (C & S & n & En).
  split; [exact C|]. exists n. rewrite S. cbn [strtoul_endptr strtoul_errno]. tauto.
Qed.

Lemma strtoul_no_number (ws sg rest : string) :
  string_forall isspace ws = true -> sign_text sg ->
  stops isspace (sg ++ rest) -> (sg = "" -> stops is_sign rest) ->
  stops isdigit rest ->
  strtoul (ws ++ sg ++ rest) = mk_strtoul 0 0 false.
Proof.
  intros Hws Hsg Hsp Hsign Hdig. unfold strtoul.
  rewrite skip_spaces_app by assumption.
  assert (E : read_sign (sg ++ rest) = (String.eqb sg "-", String.length sg, rest)).
  { destruct Hsg; try reflexivity. cbn [append].
    specialize (Hsign eq_refl). destruct rest as [|c rest]; [reflexivity|].
    cbn [stops] in Hsign. unfold is_sign in Hsign. apply orb_false_elim in Hsign.
    destruct Hsign as [Hp Hm].
    destruct c as [[] [] [] [] [] [] [] []]; try reflexivity;
      (discriminate Hp || discriminate Hm). }
  rewrite E.
  assert (R : read_digits rest 0 = (0, O)).
  { destruct rest as [|c rest]; [reflexivity|]. cbn [read_digits stops] in *.
    now rewrite Hdig. }
  now rewrite R.
Qed.

(** None of the listed errors is a depth. *)
Lemma depth_error_not_numeral (text : string) :
  depth_error text -> ~ depth_numeral text.
Proof.
  intros He Hn. apply depth_numeral_strtoul in Hn.
  destruct Hn as (_ & n & Hend & Hlen & Herr).
  destruct He as [|ws sg rest Hws Hsg Hsp Hsign Hdig
                  |ws sg d c rest Hws Hsg Hd Hc
                  |ws sg d tail Hws Hsg Hd Ht Hv].
  - discriminate Hlen.
  - rewrite strtoul_no_number in Hend by assumption. discriminate Hend.
  - rewrite (strtoul_numeral ws sg (String c rest) d Hws Hsg Hd Hc) in Hend.
    cbv zeta in Hend. rewrite !length_app in Hlen. cbn [String.length] in Hlen.
    destruct (ULONG_MAX <? N.of_uint d); cbn [strtoul_endptr] in Hend; lia.
  - rewrite (strtoul_numeral ws sg tail d Hws Hsg Hd Ht) in Herr. cbv zeta in Herr.
    destruct (N.ltb_spec ULONG_MAX (N.of_uint d)); [discriminate Herr | lia].
Qed.

Lemma find_none_absent {V : Type} (key : string) (m : list (string * V)) :
  find String.eqb key m = None -> ~ In key (map fst m).
Proof.
  intros F Hin. destruct (find_present key m Hin) as (v & E). congruence.
Qed.

(** The depth sub-part as [keyexpr_to_qos] tests it. *)
Lemma depth_test (text : string) :
  let nptr := c_str text in
  let r := strtoul nptr in
  depth_numeral nptr <->
  exists k, strtoul_endptr r = S k /\
            negb (Ascii.eqb (deref nptr (S k)) NUL) = false /\
            strtoul_errno r = false.
Proof.
  cbv zeta. split.
  - intros H. apply depth_numeral_strtoul in H.
    destruct H as (_ & n & Hend & Hlen & Herr).
    exists n. repeat split; try assumption.
    now rewrite <- Hlen, deref_end, Ascii.eqb_refl.
  - intros (k & Hend & Hd & Herr).
    apply (strtoul_accepts _ k); try assumption; [apply c_str_free|].
    apply negb_false_iff in Hd. now apply Ascii.eqb_eq in Hd.
Qed.

(** C7, as amended. QoS decode failures: [keyexpr_to_qos] returns no value
    exactly when the text has fewer than 3 parts between colons, or the
    third part has fewer than 2 sub-parts between commas, or the
    reliability, durability or history text is not a key of its table, or
    the depth sub-part, read up to its first NUL character, is not white
    space, an optional sign and at least one digit for a number within
    [ULONG_MAX]; in particular when that depth text is empty, holds no
    number, has a character other than a digit after the number, or
    denotes a number above [ULONG_MAX]. Every profile it returns has
    liveliness, lease duration, deadline and lifespan at their defaults. *)
Theorem keyexpr_to_qos_refusals :
  forall keyexpr : string,
    (keyexpr_to_qos keyexpr = None <-> qos_refused keyexpr) /\
    (depth_error
       (c_str (part (split_keyexpr QOS_HISTORY_DELIMITER
                       (part (split_keyexpr QOS_DELIMITER keyexpr) 2)) 1)) ->
     keyexpr_to_qos keyexpr = None) /\
    (forall q : rmw_qos_profile_t,
        keyexpr_to_qos keyexpr = Some q ->
        liveliness q = RMW_QOS_POLICY_LIVELINESS_AUTOMATIC /\
        liveliness_lease_duration q = RMW_QOS_LIVELINESS_LEASE_DURATION_DEFAULT /\
        deadline q = RMW_QOS_DEADLINE_DEFAULT /\
        lifespan q = RMW_QOS_LIFESPAN_DEFAULT).
Proof.
  intros keyexpr.
  assert (Hiff : keyexpr_to_qos keyexpr = None <-> qos_refused keyexpr).
  { unfold qos_refused, keyexpr_to_qos.
    set (parts := split_keyexpr QOS_DELIMITER keyexpr).
    set (history_parts := split_keyexpr QOS_HISTORY_DELIMITER (part parts 2)).
    destruct (Nat.ltb_spec (length parts) 3) as [L3|L3]; [tauto|].
    destruct (Nat.ltb_spec (length history_parts) 2) as [L2|L2]; [tauto|].
    unfold at_.
    destruct (find String.eqb (part history_parts 0) str_to_qos_history) as [h|] eqn:Fh;
      [|apply find_none_absent in Fh; cbn [bind try_catch]; tauto].
    destruct (find String.eqb (part parts 0) str_to_qos_reliability) as [r|] eqn:Fr;
      [|apply find_none_absent in Fr; cbn [bind try_catch]; tauto].
    destruct (find String.eqb (part parts 1) str_to_qos_durability) as [d|] eqn:Fd;
      [|apply find_none_absent in Fd; cbn [bind try_catch]; tauto].
    cbn [bind try_catch].
    pose proof (depth_test (part history_parts 1)) as T. cbv zeta in T.
    assert (Nh : ~ ~ In (part history_parts 0) (map fst str_to_qos_history))
      by (intros N; apply find_absent in N; congruence).
    assert (Nr : ~ ~ In (part parts 0) (map fst str_to_qos_reliability))
      by (intros N; apply find_absent in N; congruence).
    assert (Nd : ~ ~ In (part parts 1) (map fst str_to_qos_durability))
      by (intros N; apply find_absent in N; congruence).
    destruct (strtoul_endptr (strtoul (c_str (part history_parts 1)))) as [|k] eqn:Hend.
    - split; [intros _|reflexivity]. do 5 right. intros Hn.
      apply T in Hn. destruct Hn as (k & Hk & _). discriminate Hk.
    - destruct (negb (Ascii.eqb (deref (c_str (part history_parts 1)) (S k)) NUL))
        eqn:Hd.
      + split; [intros _|reflexivity]. do 5 right. intros Hn.
        apply T in Hn. destruct Hn as (k' & Hk & Hd' & _).
        injection Hk as <-. congruence.
      + destruct (strtoul_errno (strtoul (c_str (part history_parts 1)))) eqn:Herr.
        * split; [intros _|reflexivity]. do 5 right. intros Hn.
          apply T in Hn. destruct Hn as (k' & _ & _ & He). discriminate He.
        * split; [discriminate|].
          intros [H|[H|[H|[H|[H|H]]]]]; try lia; try contradiction.
          exfalso. apply H, T. exists k. repeat split; assumption. }
  split; [exact Hiff|]. split.
  - intros He. apply Hiff. unfold qos_refused. do 5 right.
    now apply depth_error_not_numeral.
  - intros q. unfold keyexpr_to_qos.
    destruct (length (split_keyexpr QOS_DELIMITER keyexpr) <? 3)%nat; [discriminate|].
    destruct (length _ <? 2)%nat; [discriminate|].
    unfold at_.
    destruct (find String.eqb _ str_to_qos_history); [|discriminate].
    destruct (find String.eqb _ str_to_qos_reliability); [|discriminate].
    destruct (find String.eqb _ str_to_qos_durability); [|discriminate].
    cbn [bind try_catch].
    destruct (strtoul_endptr _); [discriminate|].
    destruct (negb _); [discriminate|].
    destruct (strtoul_errno _); [discriminate|].
    intros E. injection E as <-. repeat split.
Qed.

Lemma keyexpr_to_qos_refusals_witness :
  (keyexpr_to_qos "99:1:1,5" = None /\
   keyexpr_to_qos "1:1:1," = None /\
   keyexpr_to_qos "1:1:1,abc" = None /\
   keyexpr_to_qos "1:1:1,-" = None /\
   keyexpr_to_qos "1:1:1, " = None /\
   keyexpr_to_qos "1:1:1,5x" = None /\
   keyexpr_to_qos "1:1:1,18446744073709551616" = None) /\
  liveliness (mk_qos 2 10 2 1 RMW_QOS_DEADLINE_DEFAULT RMW_QOS_LIFESPAN_DEFAULT
                RMW_QOS_POLICY_LIVELINESS_AUTOMATIC RMW_QOS_LIVELINESS_LEASE_DURATION_DEFAULT)
  = RMW_QOS_POLICY_LIVELINESS_AUTOMATIC.
Proof.
  split; [split; [|split; [|split; [|split; [|split; [|split]]]]]|].
  - apply (proj2 (proj1 (keyexpr_to_qos_refusals "99:1:1,5"))).
    right; right; left. simpl. intros [H|[H|[H|[H|[]]]]]; discriminate H.
  - apply (proj1 (proj2 (keyexpr_to_qos_refusals "1:1:1,"))).
    exact depth_empty.
  - apply (proj1 (proj2 (keyexpr_to_qos_refusals "1:1:1,abc"))).
    apply (depth_no_number "" "" "abc"); (reflexivity || constructor).
  - apply (proj1 (proj2 (keyexpr_to_qos_refusals "1:1:1,-"))).
    apply (depth_no_number "" "-" ""); (reflexivity || constructor || discriminate).
  - apply (proj1 (proj2 (keyexpr_to_qos_refusals "1:1:1, "))).
    apply (depth_no_number " " "" ""); (reflexivity || constructor).
  - apply (proj1 (proj2 (keyexpr_to_qos_refusals "1:1:1,5x"))).
    apply (depth_trailing "" "" (D5 Nil) "x"%char ""); (reflexivity || constructor || discriminate).
  - apply (proj1 (proj2 (keyexpr_to_qos_refusals "1:1:1,18446744073709551616"))).
    apply (depth_overflow "" "" (N.to_uint 18446744073709551616) "");
      (reflexivity || constructor || discriminate).
  - apply (proj2 (proj2 (keyexpr_to_qos_refusals "2:1:2,10")) _ eq_refl).
Defined.

(** C7, as stated, fails: the depth sub-part of the text below is the
    number 5 followed by a NUL character and by ["x"], neither of which is
    a digit, so it has non-numeric trailing characters; [strtoul] reads it
    through [c_str()] up to the NUL only, and [keyexpr_to_qos] returns a
    profile of depth 5. *)
Lemma keyexpr_to_qos_trailing_counterexample :
  part (split_keyexpr QOS_HISTORY_DELIMITER
          (part (split_keyexpr QOS_DELIMITER ("1:2:1,5" ++ String NUL "x")) 2)) 1
  = "5" ++ String NUL "x" /\
  isdigit NUL = false /\
  isdigit "x"%char = false /\
  keyexpr_to_qos ("1:2:1,5" ++ String NUL "x")
  = Some (mk_qos 1 5 1 2 RMW_QOS_DEADLINE_DEFAULT RMW_QOS_LIFESPAN_DEFAULT
            RMW_QOS_POLICY_LIVELINESS_AUTOMATIC RMW_QOS_LIVELINESS_LEASE_DURATION_DEFAULT).
Proof. repeat split. Qed.
